(** * LLThumbnailCtrl: the thumbnail widget of indra/newview/llthumbnailctrl.cpp

    A shallow embedding of the widget (construction, [setValue], [draw],
    [handleHover], destruction) over an explicit model of its collaborators:
    the texture manager's table of fetched textures, the UI image registry,
    the 2-D drawing layer (recorded as a log of calls), the host window and
    the agent.  Pointer dereferences are fallible, so that "this code never
    dereferences a null handle" is a statement that can be proved. *)

From Stdlib Require Import ZArith Bool Ascii String.
From stdpp Require Import base option strings list gmap fin_maps.

Local Open Scope Z_scope.

(** ** Scalar types of the viewer *)

Abbreviation S32 := Z (only parsing).
Abbreviation U32 := Z (only parsing).
Abbreviation MASK := Z (only parsing).

(** An F32 is carried as its IEEE-754 bit pattern; the widget never computes
    with one, it only hands them on to the drawing layer. *)
Abbreviation F32 := Z (only parsing).
Definition F32_one : F32 := 0x3F800000.

(** [LLUUID]: the 128 bits of [mData], read as one unsigned number.
    [LLUUID::null] is the all-zero identifier. *)
Abbreviation LLUUID := Z (only parsing).
Definition LLUUID_null : LLUUID := 0.
Definition LLUUID_notNull (id : LLUUID) : bool := negb (id =? 0).

(** ** LLSD, the polymorphic value handed to [setValue] *)

Inductive LLSD :=
| LLSD_Undefined
| LLSD_Boolean (b : bool)
| LLSD_Integer (i : S32)
| LLSD_String (s : string)
| LLSD_UUID (id : LLUUID)
| LLSD_URI (u : string).

Definition isString (v : LLSD) : bool :=
  match v with LLSD_String _ => true | _ => false end.

Definition isUUID (v : LLSD) : bool :=
  match v with LLSD_UUID _ => true | _ => false end.

(** Only used on values that passed [isString] / [isUUID]; the other
    conversions of LLSD are not needed by the widget. *)
Definition asString (v : LLSD) : string :=
  match v with LLSD_String s => s | LLSD_URI u => u | _ => "" end.

Definition asUUID (v : LLSD) : LLUUID :=
  match v with LLSD_UUID id => id | _ => LLUUID_null end.

(** ** Geometry and colours *)

Record LLRect := mkRect { mLeft : S32; mTop : S32; mRight : S32; mBottom : S32 }.

Definition getWidth (r : LLRect) : S32 := mRight r - mLeft r.
Definition getHeight (r : LLRect) : S32 := mTop r - mBottom r.

(** Modelled from the spec: [LLRect::stretch] (llrect.h is not among the
    sources).  "Shrink the working rectangle by 1 pixel on each side" is
    [stretch r (-1)]: every edge moves outwards by [delta]. *)
Definition stretch (r : LLRect) (delta : S32) : LLRect :=
  {| mLeft := mLeft r - delta; mTop := mTop r + delta;
     mRight := mRight r + delta; mBottom := mBottom r - delta |}.

(** Colours stay symbolic: [Color_mod c k] is the C++ [c % k], the colour
    [c] with its alpha multiplied by [k]. *)
Inductive LLColor4 :=
| UI_VERTEX_COLOR
| Color_grey
| Color_black
| Color_white
| Color_rgba (r g b a : F32)
| Color_mod (c : LLColor4) (k : F32).

Inductive EBoostLevel := BOOST_NONE | BOOST_UI | BOOST_PREVIEW.
Inductive FTType := FTT_DEFAULT.
Inductive ETexListType := LOD_TEXTURE.
Inductive ECursorType := UI_CURSOR_ARROW | UI_CURSOR_HAND | UI_CURSOR_WAIT.
Inductive ETypeTransparency := TT_DEFAULT | TT_ACTIVE | TT_INACTIVE | TT_FADING.
Inductive HAlign := HAlign_LEFT | HAlign_RIGHT | HAlign_HCENTER.
Inductive VAlign := VAlign_TOP | VAlign_VCENTER | VAlign_BASELINE | VAlign_BOTTOM.
Inductive ShadowType := NO_SHADOW | DROP_SHADOW | DROP_SHADOW_SOFT.
Definition MIPMAP_YES : bool := true.

Definition ETypeTransparency_eqb (a b : ETypeTransparency) : bool :=
  match a, b with
  | TT_DEFAULT, TT_DEFAULT | TT_ACTIVE, TT_ACTIVE
  | TT_INACTIVE, TT_INACTIVE | TT_FADING, TT_FADING => true
  | _, _ => false
  end.

(** ** Fetched textures and UI images *)

(** The part of [LLViewerFetchedTexture] that the widget reads or writes. *)
Record LLViewerFetchedTexture := mkTexture {
  mFullWidth : S32;
  mFullHeight : S32;
  mComponents : Z;
  mFullyLoaded : bool;
  mDiscardLevel : S32;
  mBoostLevel : EBoostLevel;
  mForceToSaveRawImage : bool;
  mDesiredSavedRawDiscardLevel : S32;
  mKnownDrawWidth : S32;
  mKnownDrawHeight : S32
}.

Definition tex_getWidth (t : LLViewerFetchedTexture) : S32 := mFullWidth t.
Definition tex_getHeight (t : LLViewerFetchedTexture) : S32 := mFullHeight t.
Definition getComponents (t : LLViewerFetchedTexture) : Z := mComponents t.
Definition isFullyLoaded (t : LLViewerFetchedTexture) : bool := mFullyLoaded t.
Definition getDiscardLevel (t : LLViewerFetchedTexture) : S32 := mDiscardLevel t.

(** Modelled from the spec: [LLViewerFetchedTexture::setBoostLevel],
    [forceToSaveRawImage] and [setKnownDrawSize] (llviewertexture.cpp is not
    among the sources).  The spec describes them as plain requests on the
    handle: "set the handle's boost level", "retain its raw image at full
    resolution (discard 0)", "set the handle's known draw size". *)
Definition setBoostLevel (level : EBoostLevel) (t : LLViewerFetchedTexture)
  : LLViewerFetchedTexture :=
  {| mFullWidth := mFullWidth t; mFullHeight := mFullHeight t;
     mComponents := mComponents t; mFullyLoaded := mFullyLoaded t;
     mDiscardLevel := mDiscardLevel t;
     mBoostLevel := level;
     mForceToSaveRawImage := mForceToSaveRawImage t;
     mDesiredSavedRawDiscardLevel := mDesiredSavedRawDiscardLevel t;
     mKnownDrawWidth := mKnownDrawWidth t;
     mKnownDrawHeight := mKnownDrawHeight t |}.

Definition forceToSaveRawImage (desired_discard : S32) (t : LLViewerFetchedTexture)
  : LLViewerFetchedTexture :=
  {| mFullWidth := mFullWidth t; mFullHeight := mFullHeight t;
     mComponents := mComponents t; mFullyLoaded := mFullyLoaded t;
     mDiscardLevel := mDiscardLevel t;
     mBoostLevel := mBoostLevel t;
     mForceToSaveRawImage := true;
     mDesiredSavedRawDiscardLevel := desired_discard;
     mKnownDrawWidth := mKnownDrawWidth t;
     mKnownDrawHeight := mKnownDrawHeight t |}.

Definition setKnownDrawSize (width height : S32) (t : LLViewerFetchedTexture)
  : LLViewerFetchedTexture :=
  {| mFullWidth := mFullWidth t; mFullHeight := mFullHeight t;
     mComponents := mComponents t; mFullyLoaded := mFullyLoaded t;
     mDiscardLevel := mDiscardLevel t;
     mBoostLevel := mBoostLevel t;
     mForceToSaveRawImage := mForceToSaveRawImage t;
     mDesiredSavedRawDiscardLevel := mDesiredSavedRawDiscardLevel t;
     mKnownDrawWidth := width;
     mKnownDrawHeight := height |}.

(** What [LLUIImage::getImage()] points to: a fetched texture (which has an
    asset id) or some other [LLTexture]; the pointer may also be null. *)
Inductive LLTexture :=
| FetchedTexture (id : LLUUID)
| OtherTexture.

Record LLUIImage := mkUIImage { mName : string; mImage : option LLTexture }.

Definition getImage (i : LLUIImage) : option LLTexture := mImage i.

(** [dynamic_cast<LLViewerFetchedTexture*>(p.get())] followed by [getID()]. *)
Definition dynamic_cast_fetched (p : option LLTexture) : option LLUUID :=
  match p with
  | Some (FetchedTexture id) => Some id
  | _ => None
  end.

(** ** The world around the widget *)

(** Everything the widget asks of the drawing layer, the font system, the
    host window and its own base class, in the order it was asked. *)
Inductive HostCall :=
| gl_rect_2d (rect : LLRect) (color : LLColor4) (filled : bool)
| gl_rect_2d_checkerboard (rect : LLRect) (alpha : F32)
| gl_draw_scaled_image (x y width height : S32) (image : LLUUID) (color : LLColor4)
| gl_draw_x (rect : LLRect) (color : LLColor4)
| LLUIImage_draw (image : LLUIImage) (rect : LLRect) (color : LLColor4)
| renderUTF8 (text : string) (begin_offset : S32) (x y : S32) (color : LLColor4)
             (halign : HAlign) (valign : VAlign) (shadow : ShadowType)
| LLUICtrl_draw
| LLUICtrl_handleHover (x y : S32) (mask : MASK)
| setCursor (cursor : ECursorType).

Record World := mkWorld {
  textures : gmap Z LLViewerFetchedTexture;  (* gTextureList, keyed by asset id *)
  ui_images : gmap string LLUIImage;         (* the UI image registry *)
  window_cursor : ECursorType;               (* getWindow()'s current cursor *)
  godlike : bool;                            (* gAgent.isGodlike() *)
  keyboard_focus : bool;                     (* hasFocus() of this widget *)
  calls : list HostCall                      (* oldest call first *)
}.

Definition set_textures (m : gmap Z LLViewerFetchedTexture) (σ : World) : World :=
  {| textures := m; ui_images := ui_images σ; window_cursor := window_cursor σ;
     godlike := godlike σ; keyboard_focus := keyboard_focus σ; calls := calls σ |}.

Definition set_window_cursor (c : ECursorType) (σ : World) : World :=
  {| textures := textures σ; ui_images := ui_images σ; window_cursor := c;
     godlike := godlike σ; keyboard_focus := keyboard_focus σ; calls := calls σ |}.

Definition add_call (c : HostCall) (σ : World) : World :=
  {| textures := textures σ; ui_images := ui_images σ;
     window_cursor := window_cursor σ; godlike := godlike σ;
     keyboard_focus := keyboard_focus σ; calls := calls σ ++ [c] |}.

(** ** A state-and-fault monad *)

Inductive Fault := NullPointer | DanglingPointer.

Inductive Outcome (A : Type) :=
| Done (a : A) (σ : World)
| Crash (f : Fault).
Arguments Done {A} a σ.
Arguments Crash {A} f.

Definition M (A : Type) : Type := World → Outcome A.

Definition ret {A} (a : A) : M A := λ σ, Done a σ.

Definition bind {A B} (m : M A) (k : A → M B) : M B :=
  λ σ, match m σ with
       | Done a σ' => k a σ'
       | Crash f => Crash f
       end.

Definition crash {A} (f : Fault) : M A := λ _, Crash f.
Definition gets {A} (f : World → A) : M A := λ σ, Done (f σ) σ.
Definition modify (f : World → World) : M unit := λ σ, Done tt (f σ).
Definition emit (c : HostCall) : M unit := modify (add_call c).

Notation "x <~ m ;; k" := (bind m (λ x, k))
  (at level 100, m at next level, right associativity).
Notation "m ;;; k" := (bind m (λ _, k))
  (at level 100, right associativity).

(** [p->method(...)] on an [LLPointer<LLViewerFetchedTexture>]: a null or
    dangling pointer is a crash. *)
Definition tex_query {A} (p : option LLUUID) (f : LLViewerFetchedTexture → A) : M A :=
  match p with
  | None => crash NullPointer
  | Some h =>
      λ σ, match textures σ !! h with
           | Some t => Done (f t) σ
           | None => Crash DanglingPointer
           end
  end.

Definition tex_call (p : option LLUUID)
    (f : LLViewerFetchedTexture → LLViewerFetchedTexture) : M unit :=
  match p with
  | None => crash NullPointer
  | Some h =>
      λ σ, match textures σ !! h with
           | Some t => Done tt (set_textures (<[h := f t]> (textures σ)) σ)
           | None => Crash DanglingPointer
           end
  end.

(** ** The widget *)

Record LLViewBorder_Params := mkBorderParams { vb_name : string; vb_rect : LLRect }.

Record LLViewBorder := mkBorder {
  border_params : LLViewBorder_Params;
  mKeyboardFocusHighlight : bool
}.

Definition setKeyboardFocusHighlight (b : bool) (v : LLViewBorder) : LLViewBorder :=
  {| border_params := border_params v; mKeyboardFocusHighlight := b |}.

(** The [LLUICtrl] sub-object, as far as the widget looks at it. *)
Record LLUICtrl := mkUICtrl {
  mLocalRect : LLRect;                     (* getLocalRect() *)
  mEnabled : bool;                         (* getEnabled() *)
  mValue : LLSD;                           (* the value kept by LLUICtrl::setValue *)
  mTransparencyType : ETypeTransparency;   (* getTransparencyType() *)
  mCurrentTransparency : F32;              (* getCurrentTransparency() *)
  mChildren : list string                  (* names of the child views *)
}.

Definition LLUICtrl_setValue (v : LLSD) (c : LLUICtrl) : LLUICtrl :=
  {| mLocalRect := mLocalRect c; mEnabled := mEnabled c; mValue := v;
     mTransparencyType := mTransparencyType c;
     mCurrentTransparency := mCurrentTransparency c; mChildren := mChildren c |}.

Definition addChild (name : string) (c : LLUICtrl) : LLUICtrl :=
  {| mLocalRect := mLocalRect c; mEnabled := mEnabled c; mValue := mValue c;
     mTransparencyType := mTransparencyType c;
     mCurrentTransparency := mCurrentTransparency c;
     mChildren := mChildren c ++ [name] |}.

Record LLThumbnailCtrl := mkThumbnail {
  base : LLUICtrl;
  mBorderColor : LLColor4;
  mBorderVisible : bool;
  mInteractable : bool;
  mShowLoadingPlaceholder : bool;
  mPriority : EBoostLevel;
  mLoadingPlaceholderString : string;
  mBorder : option LLViewBorder;
  mImageAssetID : LLUUID;
  mTexturep : option LLUUID;      (* LLPointer<LLViewerFetchedTexture> *)
  mImagep : option LLUIImage      (* LLPointer<LLUIImage> *)
}.

Definition set_base (b : LLUICtrl) (w : LLThumbnailCtrl) : LLThumbnailCtrl :=
  {| base := b; mBorderColor := mBorderColor w; mBorderVisible := mBorderVisible w;
     mInteractable := mInteractable w;
     mShowLoadingPlaceholder := mShowLoadingPlaceholder w;
     mPriority := mPriority w;
     mLoadingPlaceholderString := mLoadingPlaceholderString w;
     mBorder := mBorder w; mImageAssetID := mImageAssetID w;
     mTexturep := mTexturep w; mImagep := mImagep w |}.

Definition set_mBorder (b : option LLViewBorder) (w : LLThumbnailCtrl) : LLThumbnailCtrl :=
  {| base := base w; mBorderColor := mBorderColor w; mBorderVisible := mBorderVisible w;
     mInteractable := mInteractable w;
     mShowLoadingPlaceholder := mShowLoadingPlaceholder w;
     mPriority := mPriority w;
     mLoadingPlaceholderString := mLoadingPlaceholderString w;
     mBorder := b; mImageAssetID := mImageAssetID w;
     mTexturep := mTexturep w; mImagep := mImagep w |}.

Definition set_mImageAssetID (id : LLUUID) (w : LLThumbnailCtrl) : LLThumbnailCtrl :=
  {| base := base w; mBorderColor := mBorderColor w; mBorderVisible := mBorderVisible w;
     mInteractable := mInteractable w;
     mShowLoadingPlaceholder := mShowLoadingPlaceholder w;
     mPriority := mPriority w;
     mLoadingPlaceholderString := mLoadingPlaceholderString w;
     mBorder := mBorder w; mImageAssetID := id;
     mTexturep := mTexturep w; mImagep := mImagep w |}.

Definition set_mTexturep (p : option LLUUID) (w : LLThumbnailCtrl) : LLThumbnailCtrl :=
  {| base := base w; mBorderColor := mBorderColor w; mBorderVisible := mBorderVisible w;
     mInteractable := mInteractable w;
     mShowLoadingPlaceholder := mShowLoadingPlaceholder w;
     mPriority := mPriority w;
     mLoadingPlaceholderString := mLoadingPlaceholderString w;
     mBorder := mBorder w; mImageAssetID := mImageAssetID w;
     mTexturep := p; mImagep := mImagep w |}.

Definition set_mImagep (p : option LLUIImage) (w : LLThumbnailCtrl) : LLThumbnailCtrl :=
  {| base := base w; mBorderColor := mBorderColor w; mBorderVisible := mBorderVisible w;
     mInteractable := mInteractable w;
     mShowLoadingPlaceholder := mShowLoadingPlaceholder w;
     mPriority := mPriority w;
     mLoadingPlaceholderString := mLoadingPlaceholderString w;
     mBorder := mBorder w; mImageAssetID := mImageAssetID w;
     mTexturep := mTexturep w; mImagep := p |}.

Definition getLocalRect (w : LLThumbnailCtrl) : LLRect := mLocalRect (base w).
Definition getEnabled (w : LLThumbnailCtrl) : bool := mEnabled (base w).
Definition getValue (w : LLThumbnailCtrl) : LLSD := mValue (base w).
Definition getTransparencyType (w : LLThumbnailCtrl) : ETypeTransparency :=
  mTransparencyType (base w).
Definition getCurrentTransparency (w : LLThumbnailCtrl) : F32 :=
  mCurrentTransparency (base w).

(** ** Construction parameters *)

(** An [Optional<T>] of LLInitParam: the name it is registered under, its
    current value and whether a value was provided. *)
Record Optional (T : Type) := mkOptional {
  opt_name : string;
  opt_value : T;
  isProvided : bool
}.
Arguments mkOptional {T}.
Arguments opt_name {T}.
Arguments opt_value {T}.
Arguments isProvided {T}.

Definition provide {T} (v : T) (o : Optional T) : Optional T :=
  {| opt_name := opt_name o; opt_value := v; isProvided := true |}.

Record Params := mkParams {
  border : Optional LLViewBorder_Params;
  border_color : Optional LLColor4;
  image_name : Optional LLSD;
  border_visible : Optional bool;
  interactable : Optional bool;
  show_loading : Optional bool
}.

(** Values of the options that the constructor gives no default for. *)
Definition default_border_params : LLViewBorder_Params :=
  {| vb_name := ""; vb_rect := mkRect 0 0 0 0 |}.
Definition default_border_color : LLColor4 := Color_black.

(** [LLThumbnailCtrl::Params::Params()], lines 43-50. *)
Definition Params_Params : Params :=
  {| border := mkOptional "border" default_border_params false;
     border_color := mkOptional "border_color" default_border_color false;
     image_name := mkOptional "image_name" LLSD_Undefined false;
     border_visible := mkOptional "show_visible" false false;
     interactable := mkOptional "interactable" false false;
     show_loading := mkOptional "show_loading" true false |}.

(** The names under which a bundle's options are registered. *)
Definition Params_names (p : Params) : list string :=
  [opt_name (border p); opt_name (border_color p); opt_name (image_name p);
   opt_name (border_visible p); opt_name (interactable p);
   opt_name (show_loading p)].

Definition recognizes (p : Params) (name : string) : bool :=
  existsb (String.eqb name) (Params_names p).

(** An attribute value as a layout description supplies it. *)
Inductive ParamValue :=
| PV_bool (b : bool)
| PV_color (c : LLColor4)
| PV_value (v : LLSD)
| PV_border (b : LLViewBorder_Params).

(** Modelled from the spec: parameter binding by name (LLInitParam is not
    among the sources).  "Named, optionally-provided fields supplied at
    construction": an attribute sets the option registered under its name
    when the value has the option's type, and is ignored otherwise. *)
Definition Params_bind (name : string) (v : ParamValue) (p : Params) : Params :=
  match v with
  | PV_border b =>
      if String.eqb name (opt_name (border p)) then
        mkParams (provide b (border p)) (border_color p) (image_name p)
                 (border_visible p) (interactable p) (show_loading p)
      else p
  | PV_color c =>
      if String.eqb name (opt_name (border_color p)) then
        mkParams (border p) (provide c (border_color p)) (image_name p)
                 (border_visible p) (interactable p) (show_loading p)
      else p
  | PV_value s =>
      if String.eqb name (opt_name (image_name p)) then
        mkParams (border p) (border_color p) (provide s (image_name p))
                 (border_visible p) (interactable p) (show_loading p)
      else p
  | PV_bool b =>
      if String.eqb name (opt_name (border_visible p)) then
        mkParams (border p) (border_color p) (image_name p)
                 (provide b (border_visible p)) (interactable p) (show_loading p)
      else if String.eqb name (opt_name (interactable p)) then
        mkParams (border p) (border_color p) (image_name p)
                 (border_visible p) (provide b (interactable p)) (show_loading p)
      else if String.eqb name (opt_name (show_loading p)) then
        mkParams (border p) (border_color p) (image_name p)
                 (border_visible p) (interactable p) (provide b (show_loading p))
      else p
  end.

Definition Params_of_attributes (attrs : list (string * ParamValue)) : Params :=
  fold_left (λ p a, Params_bind (fst a) (snd a) p) attrs Params_Params.

(** ** Collaborators whose code lives elsewhere in the viewer

    The widget calls these; their implementations are not part of
    llthumbnailctrl.cpp, so the development is parametric in them. *)
Class Externals := {
  (* LLUUID::validate *)
  LLUUID_validate : string → bool;
  (* LLUUID::LLUUID(const std::string&) *)
  LLUUID_of_string : string → LLUUID;
  (* LLTrans::getString *)
  LLTrans_getString : string → string;
  (* the texture the manager builds for an id it has not seen before *)
  create_texture : LLUUID → FTType → bool → EBoostLevel → ETexListType
                   → LLViewerFetchedTexture;
  (* what LLUICtrl::handleHover answers *)
  base_handleHover : LLUICtrl → S32 → S32 → MASK → bool
}.

Section Widget.
Context `{Externals}.

(** Modelled from the spec: [LLViewerTextureManager::getFetchedTexture]
    (llviewertexture.cpp and llviewertexturelist.cpp are not among the
    sources).  "Given an asset identifier, returns a fetched-texture handle":
    the texture listed under the id, created first when there is none; the
    handle is never null. *)
Definition getFetchedTexture (id : LLUUID) (f_type : FTType) (usemipmaps : bool)
    (boost : EBoostLevel) (texture_type : ETexListType) : M (option LLUUID) :=
  λ σ, match textures σ !! id with
       | Some _ => Done (Some id) σ
       | None =>
           Done (Some id)
                (set_textures
                   (<[id := create_texture id f_type usemipmaps boost texture_type]>
                      (textures σ)) σ)
       end.

(** Modelled from the spec: [LLUI::getUIImage] (llui.cpp is not among the
    sources).  "Given a string name, returns a pre-registered image handle",
    or null when the name is not registered. *)
Definition getUIImage (name : string) (boost : EBoostLevel) : M (option LLUIImage) :=
  gets (λ σ, ui_images σ !! name).

(** *** [LLThumbnailCtrl::setValue], lines 149-193 *)

Definition coerce (value : LLSD) : LLSD :=
  if isString value && LLUUID_validate (asString value)
  then LLSD_UUID (LLUUID_of_string (asString value))
  else value.

Definition setValue (value : LLSD) (w : LLThumbnailCtrl) : M LLThumbnailCtrl :=
  let tvalue := coerce value in
  let w := set_base (LLUICtrl_setValue tvalue (base w)) w in
  let w := set_mImageAssetID LLUUID_null w in
  let w := set_mTexturep None w in
  let w := set_mImagep None w in
  if isUUID tvalue then
    let w := set_mImageAssetID (asUUID tvalue) w in
    if LLUUID_notNull (mImageAssetID w) then
      p <~ getFetchedTexture (mImageAssetID w) FTT_DEFAULT MIPMAP_YES
                             BOOST_NONE LOD_TEXTURE ;;
      let w := set_mTexturep p w in
      tex_call (mTexturep w) (setBoostLevel (mPriority w)) ;;;
      tex_call (mTexturep w) (forceToSaveRawImage 0) ;;;
      desired_draw_width <~ tex_query (mTexturep w) tex_getWidth ;;
      desired_draw_height <~ tex_query (mTexturep w) tex_getHeight ;;
      tex_call (mTexturep w)
               (setKnownDrawSize desired_draw_width desired_draw_height) ;;;
      ret w
    else ret w
  else if isString tvalue then
    p <~ getUIImage (asString tvalue) BOOST_UI ;;
    let w := set_mImagep p w in
    match mImagep w with
    | Some image =>
        match dynamic_cast_fetched (getImage image) with
        | Some id => ret (set_mImageAssetID id w)
        | None => ret w
        end
    | None => ret w
    end
  else ret w.

(** *** [LLThumbnailCtrl::draw], lines 82-145 *)

Definition hasFocus : M bool := gets keyboard_focus.
Definition isGodlike : M bool := gets godlike.

Definition border_call (p : option LLViewBorder) (f : LLViewBorder → LLViewBorder)
  : M (option LLViewBorder) :=
  match p with
  | None => crash NullPointer
  | Some b => ret (Some (f b))
  end.

(** [alpha]: 1.0 in a focused floater, the floater's transparency otherwise. *)
Definition draw_alpha (w : LLThumbnailCtrl) : F32 :=
  if ETypeTransparency_eqb (getTransparencyType w) TT_ACTIVE
  then F32_one else getCurrentTransparency w.

(** [draw_rect] once the border has been dealt with. *)
Definition working_rect (w : LLThumbnailCtrl) : LLRect :=
  if mBorderVisible w then stretch (getLocalRect w) (-1) else getLocalRect w.

Definition v_offset : U32 := 25.

(** [draw_rect.mTop - v_offset] mixes S32 and U32, so C++ computes it modulo
    2^32.  The values below are the arguments given to [llfloor]; its
    conversion through F32 is not modelled. *)
Definition label_x (draw_rect : LLRect) : S32 := mLeft draw_rect + 3.
Definition label_y (draw_rect : LLRect) : U32 :=
  (mTop draw_rect - v_offset) mod 2 ^ 32.

Definition loading_label (w : LLThumbnailCtrl) (draw_rect : LLRect) : HostCall :=
  renderUTF8 (mLoadingPlaceholderString w) 0
             (label_x draw_rect) (label_y draw_rect)
             Color_white HAlign_LEFT VAlign_BASELINE DROP_SHADOW.

(** Lines 84-92: the border stroke and the inset of [draw_rect]. *)
Definition draw_border (w : LLThumbnailCtrl) : M (LLThumbnailCtrl * LLRect) :=
  let draw_rect := getLocalRect w in
  if mBorderVisible w then
    focus <~ hasFocus ;;
    b <~ border_call (mBorder w) (setKeyboardFocusHighlight focus) ;;
    let w := set_mBorder b w in
    emit (gl_rect_2d draw_rect (mBorderColor w) false) ;;;
    ret (w, stretch draw_rect (-1))
  else ret (w, draw_rect).

(** Lines 96-117: the texture, else the UI image, else the grey box and X. *)
Definition draw_image (w : LLThumbnailCtrl) (draw_rect : LLRect) (alpha : F32)
  : M unit :=
  match mTexturep w with
  | Some h =>
      components <~ tex_query (mTexturep w) getComponents ;;
      (if components =? 4
       then emit (gl_rect_2d_checkerboard draw_rect alpha)
       else ret tt) ;;;
      emit (gl_draw_scaled_image (mLeft draw_rect) (mBottom draw_rect)
              (getWidth draw_rect) (getHeight draw_rect) h
              (Color_mod UI_VERTEX_COLOR alpha)) ;;;
      tex_call (mTexturep w)
               (setKnownDrawSize (getWidth draw_rect) (getHeight draw_rect))
  | None =>
      match mImagep w with
      | Some image =>
          emit (LLUIImage_draw image (getLocalRect w)
                  (Color_mod UI_VERTEX_COLOR alpha))
      | None =>
          emit (gl_rect_2d draw_rect (Color_mod Color_grey alpha) true) ;;;
          (* Draw X *)
          emit (gl_draw_x draw_rect Color_black)
      end
  end.

(** Lines 122-142: the loading label. *)
Definition draw_loading (w : LLThumbnailCtrl) (draw_rect : LLRect) : M unit :=
  match mTexturep w with
  | Some _ =>
      if mShowLoadingPlaceholder w then
        loaded <~ tex_query (mTexturep w) isFullyLoaded ;;
        if negb loaded then
          discard <~ tex_query (mTexturep w) getDiscardLevel ;;
          if 1 <? discard then emit (loading_label w draw_rect)
          else
            god <~ isGodlike ;;
            if god then emit (loading_label w draw_rect) else ret tt
        else ret tt
      else ret tt
  | None => ret tt
  end.

Definition draw (w : LLThumbnailCtrl) : M LLThumbnailCtrl :=
  wr <~ draw_border w ;;
  let w := fst wr in
  let draw_rect := snd wr in
  (* If we're in a focused floater, don't apply the floater's alpha. *)
  let alpha := draw_alpha w in
  draw_image w draw_rect alpha ;;;
  draw_loading w draw_rect ;;;
  emit LLUICtrl_draw ;;;
  ret w.

(** *** [LLThumbnailCtrl::handleHover], lines 195-203 *)

Definition window_setCursor (c : ECursorType) : M unit :=
  modify (set_window_cursor c) ;;; emit (setCursor c).

Definition handleHover (x y : S32) (mask : MASK) (w : LLThumbnailCtrl) : M bool :=
  if mInteractable w && getEnabled w then
    window_setCursor UI_CURSOR_HAND ;;;
    ret true
  else
    emit (LLUICtrl_handleHover x y mask) ;;;
    ret (base_handleHover (base w) x y mask).

(** *** Constructor and destructor, lines 52-79 *)

(** [uictrl] is the [LLUICtrl] sub-object that [LLUICtrl(p)] has built. *)
Definition LLThumbnailCtrl_new (p : Params) (uictrl : LLUICtrl) : M LLThumbnailCtrl :=
  let border_rect := mLocalRect uictrl in
  let vbparams := opt_value (border p) in
  let vbparams := mkBorderParams "border" (vb_rect vbparams) in
  let vbparams := mkBorderParams (vb_name vbparams) border_rect in
  let w :=
    {| base := addChild (vb_name vbparams) uictrl;
       mBorderColor := opt_value (border_color p);
       mBorderVisible := opt_value (border_visible p);
       mInteractable := opt_value (interactable p);
       mShowLoadingPlaceholder := opt_value (show_loading p);
       mPriority := BOOST_PREVIEW;
       mLoadingPlaceholderString := LLTrans_getString "texture_loading";
       mBorder := Some (mkBorder vbparams false);
       mImageAssetID := LLUUID_null;
       mTexturep := None;
       mImagep := None |} in
  if isProvided (image_name p) then setValue (opt_value (image_name p)) w
  else ret w.

Definition LLThumbnailCtrl_delete (w : LLThumbnailCtrl) : M LLThumbnailCtrl :=
  let w := set_mTexturep None w in
  let w := set_mImagep None w in
  ret w.

End Widget.

(** ** Sequences of operations *)

(** What can happen to a constructed widget: the three public operations,
    and the host acting between them (the texture manager advancing its
    textures on the UI thread, the agent's status and the keyboard focus
    changing, the layout system moving or disabling the widget). *)
Inductive Action :=
| A_setValue (value : LLSD)
| A_draw
| A_handleHover (x y : S32) (mask : MASK)
| A_host (progress : LLUUID → LLViewerFetchedTexture → LLViewerFetchedTexture)
         (god focus : bool)
| A_layout (rect : LLRect) (enabled : bool).

Definition host_step
    (progress : LLUUID → LLViewerFetchedTexture → LLViewerFetchedTexture)
    (god focus : bool) (σ : World) : World :=
  {| textures := map_imap (λ id t, Some (progress id t)) (textures σ);
     ui_images := ui_images σ; window_cursor := window_cursor σ;
     godlike := god; keyboard_focus := focus; calls := calls σ |}.

Definition layout_step (rect : LLRect) (enabled : bool) (w : LLThumbnailCtrl)
  : LLThumbnailCtrl :=
  set_base {| mLocalRect := rect; mEnabled := enabled; mValue := mValue (base w);
              mTransparencyType := mTransparencyType (base w);
              mCurrentTransparency := mCurrentTransparency (base w);
              mChildren := mChildren (base w) |} w.

Section Runs.
Context `{Externals}.

Definition perform (a : Action) (w : LLThumbnailCtrl) : M LLThumbnailCtrl :=
  match a with
  | A_setValue value => setValue value w
  | A_draw => draw w
  | A_handleHover x y mask => handleHover x y mask w ;;; ret w
  | A_host progress god focus => modify (host_step progress god focus) ;;; ret w
  | A_layout rect enabled => ret (layout_step rect enabled w)
  end.

Fixpoint run (acts : list Action) (w : LLThumbnailCtrl) : M LLThumbnailCtrl :=
  match acts with
  | [] => ret w
  | a :: rest => w' <~ perform a w ;; run rest w'
  end.

(** A whole life: construct, use, destroy. *)
Definition lifetime (p : Params) (uictrl : LLUICtrl) (acts : list Action)
  : M LLThumbnailCtrl :=
  w <~ LLThumbnailCtrl_new p uictrl ;;
  w <~ run acts w ;;
  LLThumbnailCtrl_delete w.

(** The outcome of each call in a sequence of [setValue] calls. *)
Fixpoint setValue_each (values : list LLSD) (w : LLThumbnailCtrl) (σ : World)
  : list (Outcome LLThumbnailCtrl) :=
  match values with
  | [] => []
  | v :: rest =>
      match setValue v w σ with
      | Done w' σ' => Done w' σ' :: setValue_each rest w' σ'
      | Crash f => [Crash f]
      end
  end.

End Runs.

(** ** Predicates on states and on the call log *)

Definition at_most_one_handle (w : LLThumbnailCtrl) : bool :=
  negb (bool_decide (is_Some (mTexturep w)) && bool_decide (is_Some (mImagep w))).

(** The pointers the widget holds point somewhere: the border child exists
    and a non-null texture handle refers to a listed texture. *)
Definition pointers_valid (w : LLThumbnailCtrl) (σ : World) : Prop :=
  is_Some (mBorder w) ∧
  ∀ h, mTexturep w = Some h → is_Some (textures σ !! h).

Definition is_renderUTF8 (c : HostCall) : bool :=
  match c with renderUTF8 _ _ _ _ _ _ _ _ => true | _ => false end.

Definition is_checkerboard (c : HostCall) : bool :=
  match c with gl_rect_2d_checkerboard _ _ => true | _ => false end.

Definition is_image_blit (c : HostCall) : bool :=
  match c with
  | gl_draw_scaled_image _ _ _ _ _ _ | LLUIImage_draw _ _ _ => true
  | _ => false
  end.

Definition is_setCursor (c : HostCall) : bool :=
  match c with setCursor _ => true | _ => false end.

(** ** The picture one [draw] produces

    The calls a single [draw] makes, written as functions of the state the
    draw starts in.  [draw_makes] below is proved equal to what [draw]
    appends to the log. *)

Definition border_stroke (w : LLThumbnailCtrl) : list HostCall :=
  if mBorderVisible w
  then [gl_rect_2d (getLocalRect w) (mBorderColor w) false]
  else [].

Definition texture_blit (w : LLThumbnailCtrl) (h : LLUUID) : HostCall :=
  gl_draw_scaled_image (mLeft (working_rect w)) (mBottom (working_rect w))
    (getWidth (working_rect w)) (getHeight (working_rect w)) h
    (Color_mod UI_VERTEX_COLOR (draw_alpha w)).

Definition checkerboard (w : LLThumbnailCtrl) : HostCall :=
  gl_rect_2d_checkerboard (working_rect w) (draw_alpha w).

Definition fallback_calls (w : LLThumbnailCtrl) : list HostCall :=
  [gl_rect_2d (working_rect w) (Color_mod Color_grey (draw_alpha w)) true;
   gl_draw_x (working_rect w) Color_black].

Definition image_calls (w : LLThumbnailCtrl) (σ : World) : list HostCall :=
  match mTexturep w with
  | Some h =>
      match textures σ !! h with
      | Some t =>
          (if getComponents t =? 4 then [checkerboard w] else [])
          ++ [texture_blit w h]
      | None => []
      end
  | None =>
      match mImagep w with
      | Some image =>
          [LLUIImage_draw image (getLocalRect w)
             (Color_mod UI_VERTEX_COLOR (draw_alpha w))]
      | None => fallback_calls w
      end
  end.

Definition loading_calls (w : LLThumbnailCtrl) (σ : World) : list HostCall :=
  match mTexturep w with
  | Some h =>
      match textures σ !! h with
      | Some t =>
          if mShowLoadingPlaceholder w && negb (isFullyLoaded t)
             && ((1 <? getDiscardLevel t) || godlike σ)
          then [loading_label w (working_rect w)]
          else []
      | None => []
      end
  | None => []
  end.

Definition drawn (w : LLThumbnailCtrl) (σ : World) : list HostCall :=
  border_stroke w ++ image_calls w σ ++ loading_calls w σ ++ [LLUICtrl_draw].

(** The texture table after one [draw]: the drawn texture's known draw
    size is the working rectangle's, nothing else differs. *)
Definition textures_after_draw (w : LLThumbnailCtrl) (σ : World)
  : gmap Z LLViewerFetchedTexture :=
  match mTexturep w with
  | Some h =>
      match textures σ !! h with
      | Some t =>
          <[h := setKnownDrawSize (getWidth (working_rect w))
                   (getHeight (working_rect w)) t]> (textures σ)
      | None => textures σ
      end
  | None => textures σ
  end.

(** [σ'] is [σ] with [new] appended to the log; the texture table is
    accounted for separately. *)
Definition logged (σ σ' : World) (new : list HostCall) : Prop :=
  calls σ' = calls σ ++ new
  ∧ ui_images σ' = ui_images σ
  ∧ window_cursor σ' = window_cursor σ
  ∧ godlike σ' = godlike σ
  ∧ keyboard_focus σ' = keyboard_focus σ.

(** [w'] is [w] up to the border child's focus highlight. *)
Definition same_but_border (w w' : LLThumbnailCtrl) : Prop :=
  base w' = base w
  ∧ mBorderColor w' = mBorderColor w
  ∧ mBorderVisible w' = mBorderVisible w
  ∧ mInteractable w' = mInteractable w
  ∧ mShowLoadingPlaceholder w' = mShowLoadingPlaceholder w
  ∧ mPriority w' = mPriority w
  ∧ mLoadingPlaceholderString w' = mLoadingPlaceholderString w
  ∧ mImageAssetID w' = mImageAssetID w
  ∧ mTexturep w' = mTexturep w
  ∧ mImagep w' = mImagep w
  ∧ (is_Some (mBorder w) → is_Some (mBorder w')).

(** ** A concrete set of collaborators, to run the widget on examples *)

(** Modelled from the spec: the textual form of an identifier (lluuid.cpp
    is not among the sources): hexadecimal digits, upper or lower case, in
    groups of 8, 4, 4, 4 and 12 separated by hyphens, 36 characters in
    all, as in the spec's example 550e8400-e29b-41d4-a716-446655440000.
    [canonical_uuid 0 s 0] is the number the digits of [s] spell, if [s] is
    of that form. *)
Definition hex_value (c : ascii) : option Z :=
  let n := Z.of_N (N_of_ascii c) in
  if (48 <=? n) && (n <=? 57) then Some (n - 48)
  else if (97 <=? n) && (n <=? 102) then Some (n - 87)
  else if (65 <=? n) && (n <=? 70) then Some (n - 55)
  else None.

Definition is_hyphen_position (pos : nat) : bool :=
  (pos =? 8)%nat || (pos =? 13)%nat || (pos =? 18)%nat || (pos =? 23)%nat.

Fixpoint canonical_uuid (pos : nat) (s : string) (acc : Z) : option Z :=
  match s with
  | EmptyString => if (pos =? 36)%nat then Some acc else None
  | String c rest =>
      if is_hyphen_position pos then
        if Ascii.eqb c "-" then canonical_uuid (S pos) rest acc else None
      else
        match hex_value c with
        | Some d => canonical_uuid (S pos) rest (16 * acc + d)
        | None => None
        end
  end.

(** Modelled from the spec: [LLUUID::validate] and the constructor of an
    [LLUUID] from a string (lluuid.cpp is not among the sources).  "A
    syntactically valid identifier" is a string of the form above; a string
    that is not of this form converts to the null identifier. *)
Definition validate_canonical (s : string) : bool :=
  bool_decide (is_Some (canonical_uuid 0 s 0)).

Definition uuid_of_canonical (s : string) : LLUUID :=
  default LLUUID_null (canonical_uuid 0 s 0).

Definition blank_texture (boost : EBoostLevel) : LLViewerFetchedTexture :=
  {| mFullWidth := 0; mFullHeight := 0; mComponents := 0; mFullyLoaded := false;
     mDiscardLevel := -1; mBoostLevel := boost; mForceToSaveRawImage := false;
     mDesiredSavedRawDiscardLevel := -1;
     mKnownDrawWidth := 0; mKnownDrawHeight := 0 |}.

Definition viewer : Externals :=
  {| LLUUID_validate := validate_canonical;
     LLUUID_of_string := uuid_of_canonical;
     LLTrans_getString := λ key,
       if String.eqb key "texture_loading" then "Loading..." else key;
     create_texture := λ _ _ _ boost _, blank_texture boost;
     base_handleHover := λ _ _ _ _, false |}.

Definition sample_uictrl : LLUICtrl :=
  {| mLocalRect := mkRect 0 64 64 0; mEnabled := true; mValue := LLSD_Undefined;
     mTransparencyType := TT_ACTIVE; mCurrentTransparency := F32_one;
     mChildren := [] |}.

Definition sample_texture : LLViewerFetchedTexture :=
  {| mFullWidth := 256; mFullHeight := 128; mComponents := 4;
     mFullyLoaded := false; mDiscardLevel := 3; mBoostLevel := BOOST_NONE;
     mForceToSaveRawImage := false; mDesiredSavedRawDiscardLevel := -1;
     mKnownDrawWidth := 0; mKnownDrawHeight := 0 |}.

Definition sample_world : World :=
  {| textures := {[ 7 := sample_texture ]};
     ui_images := {[ "icon_foo" := mkUIImage "icon_foo" (Some (FetchedTexture 9)) ]};
     window_cursor := UI_CURSOR_ARROW; godlike := false; keyboard_focus := false;
     calls := [] |}.

(** A freshly constructed widget with default parameters. *)
Definition sample_widget : LLThumbnailCtrl :=
  {| base := addChild "border" sample_uictrl;
     mBorderColor := default_border_color;
     mBorderVisible := false; mInteractable := false;
     mShowLoadingPlaceholder := true; mPriority := BOOST_PREVIEW;
     mLoadingPlaceholderString := "Loading...";
     mBorder := Some (mkBorder (mkBorderParams "border" (mkRect 0 64 64 0)) false);
     mImageAssetID := LLUUID_null; mTexturep := None; mImagep := None |}.

(** The same widget once [setValue] has fetched texture 7. *)
Definition textured_widget : LLThumbnailCtrl :=
  set_mTexturep (Some 7) (set_mImageAssetID 7 sample_widget).

Definition null_uuid_string : string := "00000000-0000-0000-0000-000000000000".
Definition sample_uuid_string : string := "550e8400-e29b-41d4-a716-446655440000".

(** ** What one [setValue] comes to

    The widget and the world that a [setValue] call leaves, written as
    functions of the state before the call; [setValue_comes_to] proves that
    [setValue] returns exactly these. *)

(** A texture after the three requests of lines 172-178. *)
Definition configured (priority : EBoostLevel) (t : LLViewerFetchedTexture)
  : LLViewerFetchedTexture :=
  let t' := forceToSaveRawImage 0 (setBoostLevel priority t) in
  setKnownDrawSize (tex_getWidth t') (tex_getHeight t') t'.

Section Resolution.
Context `{Externals}.

(** The texture [getFetchedTexture] hands out for [id]. *)
Definition listed_or_new (id : LLUUID) (σ : World) : LLViewerFetchedTexture :=
  default (create_texture id FTT_DEFAULT MIPMAP_YES BOOST_NONE LOD_TEXTURE)
          (textures σ !! id).

(** Lines 158-162: the value stored, identifier and handles cleared. *)
Definition cleared (tvalue : LLSD) (w : LLThumbnailCtrl) : LLThumbnailCtrl :=
  set_mImagep None
    (set_mTexturep None
       (set_mImageAssetID LLUUID_null
          (set_base (LLUICtrl_setValue tvalue (base w)) w))).

Definition resolved (value : LLSD) (w : LLThumbnailCtrl) (σ : World)
  : LLThumbnailCtrl :=
  let w0 := cleared (coerce value) w in
  match coerce value with
  | LLSD_UUID id =>
      if LLUUID_notNull id
      then set_mTexturep (Some id) (set_mImageAssetID id w0)
      else set_mImageAssetID id w0
  | LLSD_String s =>
      match ui_images σ !! s with
      | Some image =>
          match dynamic_cast_fetched (getImage image) with
          | Some id => set_mImageAssetID id (set_mImagep (Some image) w0)
          | None => set_mImagep (Some image) w0
          end
      | None => set_mImagep None w0
      end
  | _ => w0
  end.

Definition world_after_setValue (value : LLSD) (w : LLThumbnailCtrl) (σ : World)
  : World :=
  match coerce value with
  | LLSD_UUID id =>
      if LLUUID_notNull id
      then set_textures
             (<[id := configured (mPriority w) (listed_or_new id σ)]> (textures σ)) σ
      else σ
  | _ => σ
  end.

(** Construct, then act; the widget is still alive at the end. *)
Definition constructed_then (p : Params) (uictrl : LLUICtrl) (acts : list Action)
  : M LLThumbnailCtrl :=
  w <~ LLThumbnailCtrl_new p uictrl ;;
  run acts w.

End Resolution.

(** How the two handles, the asset identifier and the stored value hang
    together in a widget that went through the constructor. *)
Definition handles_consistent (w : LLThumbnailCtrl) : Prop :=
  (∀ h, mTexturep w = Some h →
        getValue w = LLSD_UUID h
        ∧ mImageAssetID w = h
        ∧ LLUUID_notNull h = true
        ∧ mImagep w = None)
  ∧ (∀ image, mImagep w = Some image →
        isString (getValue w) = true
        ∧ mTexturep w = None
        ∧ mImageAssetID w
          = default LLUUID_null (dynamic_cast_fetched (getImage image))).

Definition is_LLUICtrl_draw (c : HostCall) : bool :=
  match c with LLUICtrl_draw => true | _ => false end.

(** More sample states: a bordered widget showing the registered UI image,
    and a widget only 10 pixels high showing texture 7. *)
Definition bordered_icon_widget : LLThumbnailCtrl :=
  {| base := addChild "border" sample_uictrl;
     mBorderColor := default_border_color;
     mBorderVisible := true; mInteractable := false;
     mShowLoadingPlaceholder := true; mPriority := BOOST_PREVIEW;
     mLoadingPlaceholderString := "Loading...";
     mBorder := Some (mkBorder (mkBorderParams "border" (mkRect 0 64 64 0)) false);
     mImageAssetID := 9; mTexturep := None;
     mImagep := Some (mkUIImage "icon_foo" (Some (FetchedTexture 9))) |}.


(** * Properties *)

Section Properties.
Context `{Externals}.

(** ** Running the monad *)

Lemma bind_done {A B} (m : M A) (k : A → M B) σ a σ' :
  m σ = Done a σ' → bind m k σ = k a σ'.
Proof. intros E. unfold bind. by rewrite E. Qed.

Lemma emit_done c σ : emit c σ = Done tt (add_call c σ).
Proof. reflexivity. Qed.

(** ** Pointer calls on a listed texture *)

Lemma tex_call_listed h f σ t :
  textures σ !! h = Some t →
  tex_call (Some h) f σ = Done tt (set_textures (<[h := f t]> (textures σ)) σ).
Proof. intros E. unfold tex_call. by rewrite E. Qed.

Lemma tex_query_listed {A} h (f : LLViewerFetchedTexture → A) σ t :
  textures σ !! h = Some t →
  tex_query (Some h) f σ = Done (f t) σ.
Proof. intros E. unfold tex_query. by rewrite E. Qed.

Lemma getFetchedTexture_listed id ft mm boost tt σ :
  ∃ σ1 t0,
    getFetchedTexture id ft mm boost tt σ = Done (Some id) σ1
    ∧ textures σ1 !! id = Some t0
    ∧ (∀ k, k ≠ id → textures σ1 !! k = textures σ !! k)
    ∧ (∀ k, is_Some (textures σ !! k) → is_Some (textures σ1 !! k))
    ∧ ui_images σ1 = ui_images σ ∧ calls σ1 = calls σ
    ∧ window_cursor σ1 = window_cursor σ.
Proof.
  unfold getFetchedTexture.
  destruct (textures σ !! id) as [t0|] eqn:E.
  - exists σ, t0. repeat split; auto.
  - eexists _, _. split; [reflexivity|]. cbn.
    split; [apply lookup_insert_eq|].
    split; [intros k Hk; by rewrite lookup_insert_ne|].
    split; [|auto].
    intros k Hk. destruct (decide (id = k)) as [->|Hne].
    + rewrite lookup_insert_eq. eauto.
    + by rewrite lookup_insert_ne.
Qed.

(** The three requests [setValue] makes on a freshly fetched handle. *)
Lemma configure_listed (p : EBoostLevel) h σ t0 :
  textures σ !! h = Some t0 →
  ∃ σ2 t,
    (tex_call (Some h) (setBoostLevel p) ;;;
     tex_call (Some h) (forceToSaveRawImage 0) ;;;
     dw <~ tex_query (Some h) tex_getWidth ;;
     dh <~ tex_query (Some h) tex_getHeight ;;
     tex_call (Some h) (setKnownDrawSize dw dh)) σ = Done tt σ2
    ∧ textures σ2 !! h = Some t
    ∧ t = setKnownDrawSize (mFullWidth t0) (mFullHeight t0)
            (forceToSaveRawImage 0 (setBoostLevel p t0))
    ∧ (∀ k, k ≠ h → textures σ2 !! k = textures σ !! k)
    ∧ ui_images σ2 = ui_images σ ∧ calls σ2 = calls σ
    ∧ window_cursor σ2 = window_cursor σ.
Proof.
  intros E.
  erewrite bind_done by (by apply tex_call_listed).
  erewrite bind_done by (apply tex_call_listed; apply lookup_insert_eq).
  erewrite bind_done by (apply tex_query_listed; apply lookup_insert_eq).
  erewrite bind_done by (apply tex_query_listed; apply lookup_insert_eq).
  erewrite tex_call_listed by apply lookup_insert_eq.
  eexists _, _. split; [reflexivity|]. cbn.
  split; [apply lookup_insert_eq|].
  split; [reflexivity|].
  split; [|auto].
  intros k Hk. by rewrite !lookup_insert_ne.
Qed.

(** [setValue] on a non-null identifier, step by step. *)
Lemma setValue_uuid_steps id w σ :
  LLUUID_notNull id = true →
  ∃ σ' t0 t,
    setValue (LLSD_UUID id) w σ
    = Done (set_mTexturep (Some id)
              (set_mImageAssetID id
                 (set_mImagep None (set_mTexturep None
                    (set_mImageAssetID LLUUID_null
                       (set_base (LLUICtrl_setValue (LLSD_UUID id) (base w)) w))))))
           σ'
    ∧ textures σ' !! id = Some t
    ∧ t = setKnownDrawSize (mFullWidth t0) (mFullHeight t0)
            (forceToSaveRawImage 0 (setBoostLevel (mPriority w) t0))
    ∧ (∀ k, k ≠ id → textures σ' !! k = textures σ !! k)
    ∧ ui_images σ' = ui_images σ ∧ calls σ' = calls σ
    ∧ window_cursor σ' = window_cursor σ.
Proof.
  intros Hnn. unfold setValue.
  cbn [coerce isString andb isUUID asUUID mImageAssetID set_mImageAssetID].
  rewrite Hnn.
  destruct (getFetchedTexture_listed id FTT_DEFAULT MIPMAP_YES BOOST_NONE
              LOD_TEXTURE σ) as (σ1 & t0 & Hget & Hl & Hother & _ & Hui & Hc & Hw).
  destruct (configure_listed (mPriority w) id σ1 t0 Hl)
    as (σ2 & t & Hcfg & Hl2 & Ht & Hother2 & Hui2 & Hc2 & Hw2).
  exists σ2, t0, t.
  split.
  - rewrite (bind_done _ _ _ _ _ Hget). cbn [mTexturep set_mTexturep].
    change (mPriority (set_mTexturep _ _)) with (mPriority w).
    unfold bind in Hcfg |- *.
    destruct (tex_call (Some id) (setBoostLevel (mPriority w)) σ1); [|done].
    destruct (tex_call (Some id) (forceToSaveRawImage 0) σ0); [|done].
    destruct (tex_query (Some id) tex_getWidth σ3); [|done].
    destruct (tex_query (Some id) tex_getHeight σ4); [|done].
    destruct (tex_call (Some id) (setKnownDrawSize a1 a2) σ5); [|done].
    by inversion Hcfg.
  - repeat split; try congruence.
    intros k Hk. rewrite Hother2, Hother; auto.
Qed.

(** C1. For every call of [setValue] with a non-null identifier, made on a
    widget whose priority is the constructor's [BOOST_PREVIEW]: the call
    returns, the image asset identifier is that identifier, the
    fetched-texture handle is present and refers to a listed texture whose
    boost level is PREVIEW, whose raw image is to be kept at discard level 0
    and whose known draw size is its own width and height. *)
Theorem setValue_uuid_fetches_and_configures id w σ :
  LLUUID_notNull id = true →
  mPriority w = BOOST_PREVIEW →
  ∃ w' σ' h t,
    setValue (LLSD_UUID id) w σ = Done w' σ'
    ∧ mImageAssetID w' = id
    ∧ mTexturep w' = Some h
    ∧ textures σ' !! h = Some t
    ∧ mBoostLevel t = BOOST_PREVIEW
    ∧ mForceToSaveRawImage t = true
    ∧ mDesiredSavedRawDiscardLevel t = 0
    ∧ mKnownDrawWidth t = tex_getWidth t
    ∧ mKnownDrawHeight t = tex_getHeight t.
Proof.
  intros Hnn Hprio.
  destruct (setValue_uuid_steps id w σ Hnn) as (σ' & t0 & t & Hrun & Hl & Ht & _).
  eexists _, σ', id, t. split; [exact Hrun|].
  subst t. cbn. rewrite Hprio in *. by repeat split.
Qed.

(** ** What every [setValue] call leaves behind *)

Lemma coerce_idempotent v : coerce (coerce v) = coerce v.
Proof.
  unfold coerce. destruct v; try reflexivity.
  cbn [isString asString andb].
  destruct (LLUUID_validate s) eqn:E; [reflexivity|].
  cbn [isString asString andb]. by rewrite E.
Qed.

Lemma coerce_valid_string s :
  LLUUID_validate s = true →
  coerce (LLSD_String s) = LLSD_UUID (LLUUID_of_string s).
Proof. intros E. unfold coerce. cbn. by rewrite E. Qed.

Lemma setValue_coerce v w : setValue v w = setValue (coerce v) w.
Proof. unfold setValue. by rewrite coerce_idempotent. Qed.

Lemma setValue_null_uuid id w σ :
  LLUUID_notNull id = false →
  setValue (LLSD_UUID id) w σ
  = Done (set_mImageAssetID id
            (set_mImagep None (set_mTexturep None
               (set_mImageAssetID LLUUID_null
                  (set_base (LLUICtrl_setValue (LLSD_UUID id) (base w)) w)))))
         σ.
Proof.
  intros Hn. unfold setValue.
  cbn [coerce isString andb isUUID asUUID mImageAssetID set_mImageAssetID].
  by rewrite Hn.
Qed.

(** The summary used by the sequence properties: the call returns, the
    stored value is the coerced one, the handles are as the branch taken
    dictates, nothing else of the widget moves, and no listed texture is
    dropped. *)
Lemma setValue_post v w σ :
  ∃ w' σ',
    setValue v w σ = Done w' σ'
    ∧ getValue w' = coerce v
    ∧ mTexturep w'
      = (if isUUID (coerce v) && LLUUID_notNull (asUUID (coerce v))
         then Some (asUUID (coerce v)) else None)
    ∧ mImagep w'
      = (if isUUID (coerce v) then None
         else if isString (coerce v) then ui_images σ !! asString (coerce v)
         else None)
    ∧ mBorder w' = mBorder w
    ∧ mPriority w' = mPriority w
    ∧ (∀ h, mTexturep w' = Some h → is_Some (textures σ' !! h))
    ∧ (∀ k, is_Some (textures σ !! k) → is_Some (textures σ' !! k)).
Proof.
  rewrite setValue_coerce.
  destruct (coerce v) as [| b | i | s | id | u] eqn:E;
    try (eexists _, σ; split; [reflexivity|]; cbn; repeat split; auto;
         intros h [=]).
  - (* a string that is not an identifier *)
    assert (Hv : coerce (LLSD_String s) = LLSD_String s).
    { rewrite <- E. apply coerce_idempotent. }
    unfold setValue. rewrite Hv.
    cbn [isUUID isString asString].
    unfold bind, getUIImage, gets. cbn [mImagep set_mImagep].
    destruct (ui_images σ !! s) as [image|] eqn:Ei.
    + destruct (dynamic_cast_fetched (getImage image));
        (eexists _, σ; split; [reflexivity|]; cbn; rewrite ?Hv;
         repeat split; auto; intros h [=]).
    + eexists _, σ; split; [reflexivity|]; cbn; rewrite ?Hv;
        repeat split; auto; intros h [=].
  - (* an identifier *)
    cbn [isUUID asUUID andb].
    destruct (LLUUID_notNull id) eqn:Hn.
    + destruct (setValue_uuid_steps id w σ Hn)
        as (σ' & t0 & t & Hrun & Hl & _ & Hother & _).
      eexists _, σ'. split; [exact Hrun|]. cbn.
      repeat split; auto.
      * intros h [= <-]. eauto.
      * intros k Hk. destruct (decide (k = id)) as [->|Hne]; [eauto|].
        by rewrite Hother.
    + rewrite (setValue_null_uuid id w σ Hn).
      eexists _, σ. split; [reflexivity|]. cbn.
      repeat split; auto. intros h [=].
Qed.

(** C3. Whatever the widget and the world are to begin with, and whatever
    values a sequence of [setValue] calls passes (null, strings,
    identifiers, anything else): every call of the sequence returns, and
    after each of them at most one of the two image handles is non-null. *)
Theorem setValue_each_at_most_one_handle (values : list LLSD) w σ :
  length (setValue_each values w σ) = length values
  ∧ Forall (λ o, ∃ w' σ', o = Done w' σ' ∧ at_most_one_handle w' = true)
           (setValue_each values w σ).
Proof.
  revert w σ. induction values as [|v rest IH]; intros w σ.
  - split; [reflexivity | constructor].
  - cbn [setValue_each].
    destruct (setValue_post v w σ) as (w' & σ' & Hrun & _ & Ht & Hi & _).
    rewrite Hrun. destruct (IH w' σ') as [Hlen Hall].
    split; [cbn; by rewrite Hlen|].
    constructor; [|exact Hall].
    exists w', σ'. split; [reflexivity|].
    unfold at_most_one_handle. rewrite Ht, Hi.
    destruct (isUUID (coerce v)); cbn.
    + rewrite andb_false_r. reflexivity.
    + reflexivity.
Qed.

(** ** One [draw], phase by phase *)

Lemma logged_refl σ : logged σ σ [].
Proof. unfold logged. by rewrite app_nil_r. Qed.

Lemma logged_trans σ1 σ2 σ3 l1 l2 :
  logged σ1 σ2 l1 → logged σ2 σ3 l2 → logged σ1 σ3 (l1 ++ l2).
Proof.
  intros (Hc1 & Hu1 & Hw1 & Hg1 & Hf1) (Hc2 & Hu2 & Hw2 & Hg2 & Hf2).
  unfold logged. rewrite Hc2, Hc1, app_assoc. repeat split; congruence.
Qed.

Lemma logged_add_call c σ : logged σ (add_call c σ) [c].
Proof. by unfold logged. Qed.

Lemma logged_set_textures m σ : logged σ (set_textures m σ) [].
Proof. unfold logged. cbn. by rewrite app_nil_r. Qed.

(** Goals [logged σ σ' new] where [σ'] is [σ] under a few [add_call]s. *)
Ltac solve_logged :=
  unfold logged; cbn [calls ui_images window_cursor godlike keyboard_focus
                      add_call set_textures];
  rewrite <- ?app_assoc; repeat split; reflexivity.

Lemma same_but_border_refl w : same_but_border w w.
Proof. unfold same_but_border. by repeat split. Qed.

Lemma same_but_border_set_mBorder b w :
  same_but_border w (set_mBorder (Some b) w).
Proof. unfold same_but_border. cbn. repeat split; eauto. Qed.

Lemma same_but_border_picture w w1 :
  same_but_border w w1 →
  working_rect w1 = working_rect w
  ∧ draw_alpha w1 = draw_alpha w
  ∧ ∀ σ, image_calls w1 σ = image_calls w σ
         ∧ loading_calls w1 σ = loading_calls w σ
         ∧ textures_after_draw w1 σ = textures_after_draw w σ.
Proof.
  intros (Hb & Hbc & Hbv & Hi & Hs & Hp & Hl & Hid & Ht & Him & _).
  assert (Hr : working_rect w1 = working_rect w).
  { unfold working_rect, getLocalRect. by rewrite Hbv, Hb. }
  assert (Ha : draw_alpha w1 = draw_alpha w).
  { unfold draw_alpha, getTransparencyType, getCurrentTransparency.
    by rewrite Hb. }
  repeat split; auto.
  - unfold image_calls, checkerboard, texture_blit, fallback_calls, getLocalRect.
    by rewrite Ht, Him, Hr, Ha, Hb.
  - unfold loading_calls, loading_label. by rewrite Ht, Hs, Hr, Hl.
  - unfold textures_after_draw. by rewrite Ht, Hr.
Qed.

Lemma draw_border_done w σ :
  is_Some (mBorder w) →
  ∃ w1 σ1,
    draw_border w σ = Done (w1, working_rect w) σ1
    ∧ same_but_border w w1
    ∧ logged σ σ1 (border_stroke w)
    ∧ textures σ1 = textures σ.
Proof.
  intros [b Hb]. unfold draw_border, working_rect, border_stroke.
  destruct (mBorderVisible w).
  - rewrite Hb. eexists _, _. split; [reflexivity|].
    split; [apply same_but_border_set_mBorder|].
    split; [apply logged_add_call | reflexivity].
  - exists w, σ. split; [reflexivity|].
    split; [apply same_but_border_refl|].
    split; [apply logged_refl | reflexivity].
Qed.

Lemma draw_image_done w σ :
  (∀ h, mTexturep w = Some h → is_Some (textures σ !! h)) →
  ∃ σ2,
    draw_image w (working_rect w) (draw_alpha w) σ = Done tt σ2
    ∧ logged σ σ2 (image_calls w σ)
    ∧ textures σ2 = textures_after_draw w σ.
Proof.
  intros Hlive.
  unfold draw_image, image_calls, textures_after_draw.
  destruct (mTexturep w) as [h|] eqn:Ht.
  - destruct (Hlive h eq_refl) as [t Hl]. rewrite Hl.
    erewrite bind_done by (by apply tex_query_listed).
    destruct (getComponents t =? 4).
    + erewrite bind_done by apply emit_done.
      erewrite bind_done by apply emit_done.
      erewrite tex_call_listed by exact Hl.
      eexists. split; [reflexivity|]. split; [|reflexivity].
      solve_logged.
    + erewrite bind_done by reflexivity.
      erewrite bind_done by apply emit_done.
      erewrite tex_call_listed by exact Hl.
      eexists. split; [reflexivity|]. split; [|reflexivity].
      solve_logged.
  - destruct (mImagep w) as [image|].
    + eexists. split; [apply emit_done|].
      split; [apply logged_add_call | reflexivity].
    + erewrite bind_done by apply emit_done. rewrite emit_done.
      eexists. split; [reflexivity|]. split; [|reflexivity].
      solve_logged.
Qed.

Lemma textures_after_draw_lookup w σ h t :
  mTexturep w = Some h →
  textures σ !! h = Some t →
  textures_after_draw w σ !! h
  = Some (setKnownDrawSize (getWidth (working_rect w))
            (getHeight (working_rect w)) t).
Proof.
  intros Ht Hl. unfold textures_after_draw. rewrite Ht, Hl.
  apply lookup_insert_eq.
Qed.

Lemma draw_loading_done w σ σ2 :
  (∀ h, mTexturep w = Some h → is_Some (textures σ !! h)) →
  textures σ2 = textures_after_draw w σ →
  godlike σ2 = godlike σ →
  ∃ σ3,
    draw_loading w (working_rect w) σ2 = Done tt σ3
    ∧ logged σ2 σ3 (loading_calls w σ)
    ∧ textures σ3 = textures σ2.
Proof.
  intros Hlive Htex Hgod.
  unfold draw_loading, loading_calls.
  destruct (mTexturep w) as [h|] eqn:Ht.
  2: { exists σ2. split; [reflexivity|]. split; [apply logged_refl | reflexivity]. }
  destruct (Hlive h eq_refl) as [t Hl]. rewrite Hl.
  pose proof (textures_after_draw_lookup w σ h t Ht Hl) as Hl2.
  rewrite <- Htex in Hl2.
  destruct (mShowLoadingPlaceholder w); cbn [andb].
  2: { exists σ2. split; [reflexivity|]. split; [apply logged_refl | reflexivity]. }
  erewrite bind_done by (apply tex_query_listed; exact Hl2).
  change (isFullyLoaded (setKnownDrawSize _ _ t)) with (isFullyLoaded t).
  destruct (isFullyLoaded t); cbn [negb andb].
  { exists σ2. split; [reflexivity|]. split; [apply logged_refl | reflexivity]. }
  erewrite bind_done by (apply tex_query_listed; exact Hl2).
  change (getDiscardLevel (setKnownDrawSize _ _ t)) with (getDiscardLevel t).
  destruct (1 <? getDiscardLevel t); cbn [orb].
  { eexists. split; [apply emit_done|].
    split; [apply logged_add_call | reflexivity]. }
  unfold bind, isGodlike, gets. rewrite Hgod.
  destruct (godlike σ).
  - eexists. split; [apply emit_done|].
    split; [apply logged_add_call | reflexivity].
  - exists σ2. split; [reflexivity|]. split; [apply logged_refl | reflexivity].
Qed.

(** [draw] returns whenever the widget's pointers are valid; it appends
    exactly [drawn w σ] to the log, updates the texture table as
    [textures_after_draw] says, and changes nothing of the widget except the
    border child's focus highlight. *)
Lemma draw_makes w σ :
  pointers_valid w σ →
  ∃ w' σ',
    draw w σ = Done w' σ'
    ∧ same_but_border w w'
    ∧ logged σ σ' (drawn w σ)
    ∧ textures σ' = textures_after_draw w σ.
Proof.
  intros [Hborder Hlive].
  destruct (draw_border_done w σ Hborder) as (w1 & σ1 & Hrun1 & Hsame & Hlog1 & Htex1).
  destruct (same_but_border_picture w w1 Hsame) as (Hr & Ha & Hpic).
  assert (Hlive1 : ∀ h, mTexturep w1 = Some h → is_Some (textures σ1 !! h)).
  { intros h Hh. rewrite Htex1. apply Hlive.
    destruct Hsame as (_ & _ & _ & _ & _ & _ & _ & _ & Ht & _). congruence. }
  destruct (draw_image_done w1 σ1 Hlive1) as (σ2 & Hrun2 & Hlog2 & Htex2).
  assert (Hgod : godlike σ2 = godlike σ1) by apply Hlog2.
  destruct (draw_loading_done w1 σ1 σ2 Hlive1 Htex2 Hgod)
    as (σ3 & Hrun3 & Hlog3 & Htex3).
  exists w1, (add_call LLUICtrl_draw σ3).
  split.
  - unfold draw. rewrite (bind_done _ _ _ _ _ Hrun1). cbn [fst snd].
    rewrite <- Hr.
    rewrite (bind_done _ _ _ _ _ Hrun2).
    rewrite (bind_done _ _ _ _ _ Hrun3).
    reflexivity.
  - split; [exact Hsame|].
    destruct (Hpic σ1) as (Hi & Hl & Hta).
    assert (Heq : ∀ σa σb, textures σa = textures σb → godlike σa = godlike σb →
                  image_calls w σa = image_calls w σb
                  ∧ loading_calls w σa = loading_calls w σb
                  ∧ textures_after_draw w σa = textures_after_draw w σb).
    { intros σa σb Et Eg.
      unfold image_calls, loading_calls, textures_after_draw.
      by rewrite Et, Eg. }
    destruct (Heq σ1 σ Htex1 ltac:(apply Hlog1)) as (Ei & El & Eta).
    split.
    + unfold drawn.
      apply (logged_trans _ σ1 _ _ _ Hlog1).
      rewrite <- Ei, <- Hi.
      apply (logged_trans _ σ2 _ _ _ Hlog2).
      rewrite <- El, <- Hl.
      apply (logged_trans _ σ3 _ _ _ Hlog3).
      apply logged_add_call.
    + cbn. rewrite Htex3, Htex2, Hta. exact Eta.
Qed.

(** ** What is, and is not, in the picture *)

Lemma no_text_in_border_stroke w : existsb is_renderUTF8 (border_stroke w) = false.
Proof. unfold border_stroke. by destruct (mBorderVisible w). Qed.

Lemma no_text_in_image_calls w σ : existsb is_renderUTF8 (image_calls w σ) = false.
Proof.
  unfold image_calls.
  destruct (mTexturep w) as [h|].
  - destruct (textures σ !! h) as [t|]; [|done].
    by destruct (getComponents t =? 4).
  - by destruct (mImagep w).
Qed.

Lemma no_board_no_blit_in_border_stroke w :
  existsb is_checkerboard (border_stroke w) = false
  ∧ existsb is_image_blit (border_stroke w) = false.
Proof. unfold border_stroke. by destruct (mBorderVisible w). Qed.

Lemma no_board_no_blit_in_loading_calls w σ :
  existsb is_checkerboard (loading_calls w σ ++ [LLUICtrl_draw]) = false
  ∧ existsb is_image_blit (loading_calls w σ ++ [LLUICtrl_draw]) = false.
Proof.
  unfold loading_calls.
  destruct (mTexturep w) as [h|]; [|done].
  destruct (textures σ !! h) as [t|]; [|done].
  by destruct (_ && _ && _).
Qed.

(** C4. For every draw (on a widget whose pointers are valid, so that the
    draw returns): text is rendered if and only if the fetched-texture
    handle is present, [show_loading] is set, the texture is not fully
    loaded, and its discard level is above 1 or the agent is godlike; and
    the text rendered is then the loading label. *)
Theorem draw_loading_overlay_iff w σ :
  pointers_valid w σ →
  ∃ w' σ' new,
    draw w σ = Done w' σ'
    ∧ calls σ' = calls σ ++ new
    ∧ (existsb is_renderUTF8 new = true
       ↔ ∃ h t, mTexturep w = Some h
                ∧ textures σ !! h = Some t
                ∧ mShowLoadingPlaceholder w = true
                ∧ isFullyLoaded t = false
                ∧ (1 < getDiscardLevel t ∨ godlike σ = true))
    ∧ (existsb is_renderUTF8 new = true →
       loading_label w (working_rect w) ∈ new).
Proof.
  intros Hvalid.
  destruct (draw_makes w σ Hvalid) as (w' & σ' & Hrun & _ & Hlog & _).
  exists w', σ', (drawn w σ).
  split; [exact Hrun|]. split; [apply Hlog|].
  unfold drawn.
  rewrite !existsb_app, no_text_in_border_stroke, no_text_in_image_calls.
  cbn [orb existsb is_renderUTF8]. rewrite orb_false_r.
  unfold loading_calls.
  destruct (mTexturep w) as [h|] eqn:Ht.
  2: { split; [|done]. split; [done|]. by intros (h & t & [=] & _). }
  destruct Hvalid as [_ Hlive]. destruct (Hlive h Ht) as [t Hl]. rewrite Hl.
  destruct (mShowLoadingPlaceholder w) eqn:Hs; cbn [andb].
  2: { split; [|done]. split; [done|]. by intros (? & ? & _ & _ & [=] & _). }
  destruct (isFullyLoaded t) eqn:Hf; cbn [andb negb].
  { split; [|done]. split; [done|].
    intros (h' & t' & [= <-] & Hl' & _ & Hf' & _). congruence. }
  destruct (1 <? getDiscardLevel t) eqn:Hd; cbn [orb].
  { split.
    - split; [|done]. intros _. exists h, t. repeat split; auto.
      left. by apply Z.ltb_lt.
    - intros _. rewrite !elem_of_app. right. right. left. apply list_elem_of_here. }
  destruct (godlike σ) eqn:Hg.
  - split.
    + split; [|done]. intros _. exists h, t. repeat split; auto.
    + intros _. rewrite !elem_of_app. right. right. left. apply list_elem_of_here.
  - split; [|done]. split; [done|].
    intros (h' & t' & [= <-] & Hl' & _ & _ & [Hlt | Hgod]); [|done].
    rewrite Hl in Hl'. injection Hl' as <-.
    apply Z.ltb_ge in Hd. lia.
Qed.

(** C5. For every draw with a fetched-texture handle present (and valid):
    the calls made are some calls, then the checkerboard on the working
    rectangle exactly when the texture has 4 components, then the blit of
    the texture scaled to the working rectangle, then some more calls; no
    other checkerboard and no other image blit is among them.  In
    particular with 3 components no checkerboard is drawn. *)
Theorem draw_texture_checkerboard_iff w σ h t :
  pointers_valid w σ →
  mTexturep w = Some h →
  textures σ !! h = Some t →
  ∃ w' σ' new before after,
    draw w σ = Done w' σ'
    ∧ calls σ' = calls σ ++ new
    ∧ new = before
            ++ (if getComponents t =? 4
                then [gl_rect_2d_checkerboard (working_rect w) (draw_alpha w)]
                else [])
            ++ [texture_blit w h] ++ after
    ∧ existsb is_checkerboard (before ++ after) = false
    ∧ existsb is_image_blit (before ++ after) = false
    ∧ (existsb is_checkerboard new = true ↔ getComponents t = 4)
    ∧ (getComponents t = 3 → existsb is_checkerboard new = false).
Proof.
  intros Hvalid Ht Hl.
  destruct (draw_makes w σ Hvalid) as (w' & σ' & Hrun & _ & Hlog & _).
  exists w', σ', (drawn w σ), (border_stroke w),
    (loading_calls w σ ++ [LLUICtrl_draw]).
  destruct (no_board_no_blit_in_border_stroke w) as [Hb1 Hb2].
  destruct (no_board_no_blit_in_loading_calls w σ) as [Hc1 Hc2].
  split; [exact Hrun|]. split; [apply Hlog|].
  split.
  { unfold drawn, image_calls. rewrite Ht, Hl. unfold checkerboard.
    by rewrite <- !app_assoc. }
  split; [by rewrite existsb_app, Hb1, Hc1|].
  split; [by rewrite existsb_app, Hb2, Hc2|].
  assert (Hboard : existsb is_checkerboard (drawn w σ) = (getComponents t =? 4)).
  { unfold drawn, image_calls. rewrite Ht, Hl.
    rewrite !existsb_app, Hb1. rewrite existsb_app in Hc1.
    apply orb_false_elim in Hc1 as [Hc1 _]. rewrite Hc1.
    destruct (getComponents t =? 4); reflexivity. }
  rewrite Hboard. split.
  - apply Z.eqb_eq.
  - intros E. rewrite E. reflexivity.
Qed.

(** C7. For every draw in a state where both image handles are null: the
    call returns, and what it draws is the border stroke (when the border is
    visible), then the grey fill of the working rectangle at the current
    alpha, then the X across it, then the base-class draw; there is no image
    blit, no checkerboard and no text among these calls, and no texture is
    touched. *)
Theorem draw_fallback_exactly w σ :
  pointers_valid w σ →
  mTexturep w = None →
  mImagep w = None →
  ∃ w' σ' new,
    draw w σ = Done w' σ'
    ∧ calls σ' = calls σ ++ new
    ∧ new = border_stroke w
            ++ [gl_rect_2d (working_rect w)
                  (Color_mod Color_grey (draw_alpha w)) true;
                gl_draw_x (working_rect w) Color_black;
                LLUICtrl_draw]
    ∧ existsb is_image_blit new = false
    ∧ existsb is_checkerboard new = false
    ∧ existsb is_renderUTF8 new = false
    ∧ textures σ' = textures σ.
Proof.
  intros Hvalid Ht Hi.
  destruct (draw_makes w σ Hvalid) as (w' & σ' & Hrun & _ & Hlog & Htex).
  exists w', σ', (drawn w σ).
  split; [exact Hrun|]. split; [apply Hlog|].
  assert (Hnew : drawn w σ
                 = border_stroke w
                   ++ [gl_rect_2d (working_rect w)
                         (Color_mod Color_grey (draw_alpha w)) true;
                       gl_draw_x (working_rect w) Color_black;
                       LLUICtrl_draw]).
  { unfold drawn, image_calls, loading_calls. by rewrite Ht, Hi. }
  rewrite Hnew. split; [reflexivity|].
  destruct (no_board_no_blit_in_border_stroke w) as [Hb1 Hb2].
  rewrite !existsb_app, Hb1, Hb2, no_text_in_border_stroke.
  repeat split; try reflexivity.
  rewrite Htex. unfold textures_after_draw. by rewrite Ht.
Qed.

(** C10. For every draw and every pre-state (with valid pointers): the call
    returns; the image asset identifier, both image handles, the base-class
    value and every configuration field are as before; the UI image
    registry is as before; every texture other than the one the widget
    holds is as before, and the one it holds differs only in that its known
    draw size is now the working rectangle's width and height. *)
Theorem draw_frame w σ :
  pointers_valid w σ →
  ∃ w' σ',
    draw w σ = Done w' σ'
    ∧ mImageAssetID w' = mImageAssetID w
    ∧ mTexturep w' = mTexturep w
    ∧ mImagep w' = mImagep w
    ∧ getValue w' = getValue w
    ∧ mBorderColor w' = mBorderColor w
    ∧ mBorderVisible w' = mBorderVisible w
    ∧ mInteractable w' = mInteractable w
    ∧ mShowLoadingPlaceholder w' = mShowLoadingPlaceholder w
    ∧ mPriority w' = mPriority w
    ∧ mLoadingPlaceholderString w' = mLoadingPlaceholderString w
    ∧ ui_images σ' = ui_images σ
    ∧ (∀ k, mTexturep w ≠ Some k → textures σ' !! k = textures σ !! k)
    ∧ (∀ h, mTexturep w = Some h →
         textures σ' !! h
         = setKnownDrawSize (getWidth (working_rect w))
             (getHeight (working_rect w)) <$> textures σ !! h).
Proof.
  intros Hvalid.
  destruct (draw_makes w σ Hvalid) as (w' & σ' & Hrun & Hsame & Hlog & Htex).
  destruct Hsame as (Hb & Hbc & Hbv & Hi & Hs & Hp & Hl & Hid & Ht & Him & _).
  destruct Hlog as (_ & Hui & _).
  exists w', σ'. split; [exact Hrun|].
  unfold getValue. rewrite Hb.
  repeat split; auto.
  - intros k Hk. rewrite Htex. unfold textures_after_draw.
    destruct (mTexturep w) as [h|]; [|done].
    destruct (textures σ !! h) as [t|] eqn:E; [|done].
    apply lookup_insert_ne. congruence.
  - intros h Hh. rewrite Htex. unfold textures_after_draw. rewrite Hh.
    destruct (textures σ !! h) as [t|] eqn:E.
    + by rewrite lookup_insert_eq.
    + by rewrite E.
Qed.

(** ** Hover *)

(** C6. For every [handleHover(x, y, mask)]: the call returns; it sets the
    hand cursor and answers true if and only if the widget is interactable
    and enabled, in which case setting the cursor is all it does; otherwise
    it only defers to the base class, answers what the base class answers,
    and the window's cursor is as before. *)
Theorem handleHover_hand_iff x y mask w σ :
  ∃ handled σ' new,
    handleHover x y mask w σ = Done handled σ'
    ∧ calls σ' = calls σ ++ new
    ∧ ((existsb is_setCursor new = true ∧ handled = true)
       ↔ (mInteractable w = true ∧ getEnabled w = true))
    ∧ (mInteractable w = true ∧ getEnabled w = true →
       new = [setCursor UI_CURSOR_HAND] ∧ window_cursor σ' = UI_CURSOR_HAND)
    ∧ (¬ (mInteractable w = true ∧ getEnabled w = true) →
       new = [LLUICtrl_handleHover x y mask]
       ∧ handled = base_handleHover (base w) x y mask
       ∧ window_cursor σ' = window_cursor σ).
Proof.
  unfold handleHover.
  destruct (mInteractable w) eqn:Hi; [destruct (getEnabled w) eqn:He|]; cbn [andb].
  - eexists _, _, _. split; [reflexivity|]. cbn.
    split; [reflexivity|]. split; [done|]. split; [done|].
    intros Hn. by destruct Hn.
  - eexists _, _, _. split; [reflexivity|]. cbn.
    split; [reflexivity|]. split; [|split; [|done]].
    + split; intros [? ?]; discriminate.
    + intros [_ ?]; discriminate.
  - eexists _, _, _. split; [reflexivity|]. cbn.
    split; [reflexivity|]. split; [|split; [|done]].
    + split; intros [? ?]; discriminate.
    + intros [? _]; discriminate.
Qed.

(** ** Strings that are identifiers *)

(** C2 (as amended). For every string [s] that validates as an identifier,
    [setValue] of the string is the same state transformer as [setValue] of
    the parsed identifier; the call returns, the base-class value is the
    identifier and not the string, the ui-image handle is null, and a
    fetched-texture handle results exactly when the parsed identifier is
    not the null identifier. *)
Theorem setValue_valid_string_as_uuid s w σ :
  LLUUID_validate s = true →
  setValue (LLSD_String s) w σ = setValue (LLSD_UUID (LLUUID_of_string s)) w σ
  ∧ ∃ w' σ',
      setValue (LLSD_String s) w σ = Done w' σ'
      ∧ getValue w' = LLSD_UUID (LLUUID_of_string s)
      ∧ mImagep w' = None
      ∧ (is_Some (mTexturep w') ↔ LLUUID_notNull (LLUUID_of_string s) = true).
Proof.
  intros Hv. pose proof (coerce_valid_string s Hv) as Hc.
  split.
  - by rewrite setValue_coerce, Hc.
  - destruct (setValue_post (LLSD_String s) w σ)
      as (w' & σ' & Hrun & Hval & Ht & Hi & _).
    rewrite Hc in Hval, Ht, Hi. cbn [isUUID asUUID andb] in Ht, Hi.
    exists w', σ'. repeat split; auto.
    + rewrite Ht. destruct (LLUUID_notNull (LLUUID_of_string s)); [done|].
      intros [? [=]].
    + intros Hn. rewrite Ht, Hn. eauto.
Qed.

(** ** A whole life of the widget *)

Lemma handleHover_done x y mask w σ :
  ∃ handled σ',
    handleHover x y mask w σ = Done handled σ'
    ∧ textures σ' = textures σ.
Proof.
  unfold handleHover.
  destruct (mInteractable w && getEnabled w);
    eexists _, _; (split; [reflexivity|]); reflexivity.
Qed.

Lemma LLThumbnailCtrl_new_valid p uictrl σ :
  ∃ w σ',
    LLThumbnailCtrl_new p uictrl σ = Done w σ'
    ∧ pointers_valid w σ'
    ∧ mPriority w = BOOST_PREVIEW.
Proof.
  unfold LLThumbnailCtrl_new.
  destruct (isProvided (image_name p)).
  - match goal with |- context [setValue ?v ?w0 σ] =>
      destruct (setValue_post v w0 σ)
        as (w' & σ' & Hrun & _ & _ & _ & Hb & Hp & Hlive & _)
    end.
    exists w', σ'. split; [exact Hrun|].
    split; [|by rewrite Hp].
    split; [rewrite Hb; cbn; eauto | exact Hlive].
  - eexists _, σ. split; [reflexivity|].
    split; [|reflexivity].
    split; [cbn; eauto | intros h [=]].
Qed.

Lemma perform_valid a w σ :
  pointers_valid w σ →
  mPriority w = BOOST_PREVIEW →
  ∃ w' σ',
    perform a w σ = Done w' σ'
    ∧ pointers_valid w' σ'
    ∧ mPriority w' = BOOST_PREVIEW.
Proof.
  intros [Hborder Hlive] Hprio.
  destruct a as [v | | x y mask | progress god focus | rect enabled];
    cbn [perform].
  - destruct (setValue_post v w σ)
      as (w' & σ' & Hrun & _ & _ & _ & Hb & Hp & Hlive' & _).
    exists w', σ'. split; [exact Hrun|].
    split; [|congruence].
    split; [by rewrite Hb | exact Hlive'].
  - destruct (draw_makes w σ (conj Hborder Hlive))
      as (w' & σ' & Hrun & Hsame & _ & Htex).
    destruct Hsame as (_ & _ & _ & _ & _ & Hp & _ & _ & Ht & _ & Hb).
    exists w', σ'. split; [exact Hrun|].
    split; [|congruence].
    split; [auto|].
    intros h Hh. rewrite Ht in Hh. rewrite Htex.
    unfold textures_after_draw. rewrite Hh.
    destruct (Hlive h Hh) as [t Hl]. rewrite Hl, lookup_insert_eq. eauto.
  - destruct (handleHover_done x y mask w σ) as (handled & σ' & Hrun & Htex).
    rewrite (bind_done _ _ _ _ _ Hrun).
    exists w, σ'. split; [reflexivity|].
    split; [|exact Hprio].
    split; [exact Hborder|].
    intros h Hh. rewrite Htex. auto.
  - eexists w, _. split; [reflexivity|].
    split; [|exact Hprio].
    split; [exact Hborder|].
    intros h Hh. destruct (Hlive h Hh) as [t Hl]. cbn.
    rewrite map_lookup_imap, Hl. cbn. eauto.
  - eexists _, σ. split; [reflexivity|].
    split; [|exact Hprio].
    split; [exact Hborder | exact Hlive].
Qed.

Lemma run_valid acts w σ :
  pointers_valid w σ →
  mPriority w = BOOST_PREVIEW →
  ∃ w' σ',
    run acts w σ = Done w' σ'
    ∧ pointers_valid w' σ'
    ∧ mPriority w' = BOOST_PREVIEW.
Proof.
  revert w σ. induction acts as [|a rest IH]; intros w σ Hvalid Hprio.
  - exists w, σ. split; [reflexivity | split; assumption].
  - destruct (perform_valid a w σ Hvalid Hprio) as (w1 & σ1 & Hrun & Hv1 & Hp1).
    cbn [run]. rewrite (bind_done _ _ _ _ _ Hrun). by apply IH.
Qed.

(** C9. No operation of the widget fails: for every parameter bundle, every
    base sub-object, every world and every sequence of operations and host
    actions, constructing the widget, performing the sequence and
    destroying the widget runs to completion without dereferencing a null
    or dangling pointer; and [setValue] alone, on any widget, any world and
    any value whatever (identifier, string, null or another variant),
    completes. *)
Theorem lifetime_never_crashes p uictrl acts σ :
  (∃ w' σ', lifetime p uictrl acts σ = Done w' σ')
  ∧ (∀ value w σ0, ∃ w' σ', setValue value w σ0 = Done w' σ').
Proof.
  split.
  - destruct (LLThumbnailCtrl_new_valid p uictrl σ) as (w0 & σ0 & Hnew & Hv & Hp).
    destruct (run_valid acts w0 σ0 Hv Hp) as (w1 & σ1 & Hrun & _ & _).
    unfold lifetime.
    rewrite (bind_done _ _ _ _ _ Hnew), (bind_done _ _ _ _ _ Hrun).
    eexists _, _. reflexivity.
  - intros value w σ0.
    destruct (setValue_post value w σ0) as (w' & σ' & Hrun & _).
    eauto.
Qed.

End Properties.

(** ** The parameter bundle *)

(** C8. The option held in [border_visible] defaults to false, but the name
    it is registered under is "show_visible": the bundle does not recognise
    an option named "border_visible", and a layout description that sets
    [border_visible] to true leaves the border switched off, while one that
    sets [show_visible] switches it on. *)
Theorem border_visible_registered_as_show_visible :
  opt_value (border_visible Params_Params) = false
  ∧ isProvided (border_visible Params_Params) = false
  ∧ recognizes Params_Params "border_visible" = false
  ∧ recognizes Params_Params "show_visible" = true
  ∧ opt_value (border_visible
       (Params_of_attributes [("border_visible", PV_bool true)])) = false
  ∧ opt_value (border_visible
       (Params_of_attributes [("show_visible", PV_bool true)])) = true.
Proof. repeat split. Qed.

(** ** The properties at concrete inputs *)

Lemma setValue_uuid_fetches_and_configures_witness :
  LLUUID_notNull 7 = true
  ∧ mPriority sample_widget = BOOST_PREVIEW
  ∧ ∃ w' σ' h t,
      @setValue viewer (LLSD_UUID 7) sample_widget sample_world = Done w' σ'
      ∧ mImageAssetID w' = 7
      ∧ mTexturep w' = Some h
      ∧ textures σ' !! h = Some t
      ∧ mBoostLevel t = BOOST_PREVIEW
      ∧ mForceToSaveRawImage t = true
      ∧ mDesiredSavedRawDiscardLevel t = 0
      ∧ mKnownDrawWidth t = tex_getWidth t
      ∧ mKnownDrawHeight t = tex_getHeight t.
Proof.
  split; [reflexivity|]. split; [reflexivity|].
  apply (@setValue_uuid_fetches_and_configures viewer 7 sample_widget sample_world);
    reflexivity.
Defined.

(** C2, as first stated, fails on the textual form of the null identifier:
    the string validates, yet no fetched-texture handle results. *)
Lemma null_uuid_string_yields_no_texture_handle :
  @LLUUID_validate viewer null_uuid_string = true
  ∧ ∃ w' σ',
      @setValue viewer (LLSD_String null_uuid_string) sample_widget sample_world
      = Done w' σ'
      ∧ mTexturep w' = None
      ∧ ¬ is_Some (mTexturep w').
Proof.
  split; [reflexivity|].
  eexists _, _. split; [vm_compute; reflexivity|].
  split; [reflexivity|]. cbn. by intros [? [=]].
Qed.

Lemma setValue_valid_string_as_uuid_witness :
  @LLUUID_validate viewer sample_uuid_string = true
  ∧ (@setValue viewer (LLSD_String sample_uuid_string) sample_widget sample_world
     = @setValue viewer
         (LLSD_UUID (@LLUUID_of_string viewer sample_uuid_string))
         sample_widget sample_world
     ∧ ∃ w' σ',
         @setValue viewer (LLSD_String sample_uuid_string) sample_widget sample_world
         = Done w' σ'
         ∧ getValue w' = LLSD_UUID (@LLUUID_of_string viewer sample_uuid_string)
         ∧ mImagep w' = None
         ∧ (is_Some (mTexturep w')
            ↔ LLUUID_notNull (@LLUUID_of_string viewer sample_uuid_string) = true)).
Proof.
  split; [reflexivity|].
  apply (@setValue_valid_string_as_uuid viewer sample_uuid_string
           sample_widget sample_world).
  reflexivity.
Defined.

(** Closes [pointers_valid w σ] on a concrete widget and world. *)
Ltac concrete_pointers_valid :=
  split; [eexists; reflexivity
         | intros ? [= <-] || intros ? [=]; eexists; reflexivity].

Lemma draw_loading_overlay_iff_witness :
  pointers_valid textured_widget sample_world
  ∧ ∃ w' σ' new,
      draw textured_widget sample_world = Done w' σ'
      ∧ calls σ' = calls sample_world ++ new
      ∧ (existsb is_renderUTF8 new = true
         ↔ ∃ h t, mTexturep textured_widget = Some h
                  ∧ textures sample_world !! h = Some t
                  ∧ mShowLoadingPlaceholder textured_widget = true
                  ∧ isFullyLoaded t = false
                  ∧ (1 < getDiscardLevel t ∨ godlike sample_world = true))
      ∧ (existsb is_renderUTF8 new = true →
         loading_label textured_widget (working_rect textured_widget) ∈ new).
Proof.
  split; [concrete_pointers_valid|].
  apply (draw_loading_overlay_iff textured_widget sample_world).
  concrete_pointers_valid.
Defined.

Lemma draw_texture_checkerboard_iff_witness :
  pointers_valid textured_widget sample_world
  ∧ mTexturep textured_widget = Some 7
  ∧ textures sample_world !! 7 = Some sample_texture
  ∧ ∃ w' σ' new before after,
      draw textured_widget sample_world = Done w' σ'
      ∧ calls σ' = calls sample_world ++ new
      ∧ new = before
              ++ (if getComponents sample_texture =? 4
                  then [gl_rect_2d_checkerboard (working_rect textured_widget)
                          (draw_alpha textured_widget)]
                  else [])
              ++ [texture_blit textured_widget 7] ++ after
      ∧ existsb is_checkerboard (before ++ after) = false
      ∧ existsb is_image_blit (before ++ after) = false
      ∧ (existsb is_checkerboard new = true ↔ getComponents sample_texture = 4)
      ∧ (getComponents sample_texture = 3 →
         existsb is_checkerboard new = false).
Proof.
  split; [concrete_pointers_valid|].
  split; [reflexivity|]. split; [reflexivity|].
  apply (draw_texture_checkerboard_iff textured_widget sample_world 7 sample_texture).
  - concrete_pointers_valid.
  - reflexivity.
  - reflexivity.
Defined.

Lemma draw_fallback_exactly_witness :
  pointers_valid sample_widget sample_world
  ∧ mTexturep sample_widget = None
  ∧ mImagep sample_widget = None
  ∧ ∃ w' σ' new,
      draw sample_widget sample_world = Done w' σ'
      ∧ calls σ' = calls sample_world ++ new
      ∧ new = border_stroke sample_widget
              ++ [gl_rect_2d (working_rect sample_widget)
                    (Color_mod Color_grey (draw_alpha sample_widget)) true;
                  gl_draw_x (working_rect sample_widget) Color_black;
                  LLUICtrl_draw]
      ∧ existsb is_image_blit new = false
      ∧ existsb is_checkerboard new = false
      ∧ existsb is_renderUTF8 new = false
      ∧ textures σ' = textures sample_world.
Proof.
  split; [concrete_pointers_valid|].
  split; [reflexivity|]. split; [reflexivity|].
  apply (draw_fallback_exactly sample_widget sample_world).
  - concrete_pointers_valid.
  - reflexivity.
  - reflexivity.
Defined.

Lemma draw_frame_witness :
  pointers_valid textured_widget sample_world
  ∧ ∃ w' σ',
      draw textured_widget sample_world = Done w' σ'
      ∧ mImageAssetID w' = mImageAssetID textured_widget
      ∧ mTexturep w' = mTexturep textured_widget
      ∧ mImagep w' = mImagep textured_widget
      ∧ getValue w' = getValue textured_widget
      ∧ mBorderColor w' = mBorderColor textured_widget
      ∧ mBorderVisible w' = mBorderVisible textured_widget
      ∧ mInteractable w' = mInteractable textured_widget
      ∧ mShowLoadingPlaceholder w' = mShowLoadingPlaceholder textured_widget
      ∧ mPriority w' = mPriority textured_widget
      ∧ mLoadingPlaceholderString w' = mLoadingPlaceholderString textured_widget
      ∧ ui_images σ' = ui_images sample_world
      ∧ (∀ k, mTexturep textured_widget ≠ Some k →
           textures σ' !! k = textures sample_world !! k)
      ∧ (∀ h, mTexturep textured_widget = Some h →
           textures σ' !! h
           = setKnownDrawSize (getWidth (working_rect textured_widget))
               (getHeight (working_rect textured_widget))
             <$> textures sample_world !! h).
Proof.
  split; [concrete_pointers_valid|].
  apply (draw_frame textured_widget sample_world).
  concrete_pointers_valid.
Defined.

(** ** The spec's scenarios, run *)

(** Scenario 2: a 4-component texture at discard level 3, not fully loaded:
    checkerboard, blit and loading label at (left + 3, top - 25). *)
Example draw_loading_texture :
  ∃ w' σ',
    draw textured_widget sample_world = Done w' σ'
    ∧ calls σ'
      = [gl_rect_2d_checkerboard (mkRect 0 64 64 0) F32_one;
         gl_draw_scaled_image 0 0 64 64 7 (Color_mod UI_VERTEX_COLOR F32_one);
         renderUTF8 "Loading..." 0 3 39 Color_white
                    HAlign_LEFT VAlign_BASELINE DROP_SHADOW;
         LLUICtrl_draw]
    ∧ textures σ' !! 7 = Some (setKnownDrawSize 64 64 sample_texture).
Proof.
  eexists _, _. split; [vm_compute; reflexivity|].
  split; vm_compute; reflexivity.
Qed.

(** Scenario 4: the spec's identifier, given as a string, ends up stored as
    an identifier with a fetched-texture handle and no ui-image handle. *)
Example setValue_sample_uuid_string :
  ∃ w' σ',
    @setValue viewer (LLSD_String sample_uuid_string) sample_widget sample_world
    = Done w' σ'
    ∧ getValue w' = LLSD_UUID 0x550e8400e29b41d4a716446655440000
    ∧ mTexturep w' = Some 0x550e8400e29b41d4a716446655440000
    ∧ mImagep w' = None.
Proof. eexists _, _. split; [vm_compute; reflexivity|]. by repeat split. Qed.

(** Scenario 1: a registered, texture-backed UI image. *)
Example setValue_icon_foo :
  ∃ w' σ',
    @setValue viewer (LLSD_String "icon_foo") sample_widget sample_world
    = Done w' σ'
    ∧ mTexturep w' = None
    ∧ mImagep w' = Some (mkUIImage "icon_foo" (Some (FetchedTexture 9)))
    ∧ mImageAssetID w' = 9.
Proof. eexists _, _. split; [vm_compute; reflexivity|]. by repeat split. Qed.

(** Scenario 6: hovering an enabled, interactable widget. *)
Example handleHover_interactable :
  let w := mkThumbnail (base sample_widget) Color_black false true true
             BOOST_PREVIEW "Loading..." (mBorder sample_widget) 0 None None in
  ∃ σ',
    @handleHover viewer 5 5 0 w sample_world = Done true σ'
    ∧ window_cursor σ' = UI_CURSOR_HAND.
Proof. eexists. split; [vm_compute; reflexivity | reflexivity]. Qed.

(** * Further properties of the widget *)

Section Resolving.
Context `{Externals}.

(** ** [setValue], exactly *)

Lemma bind_inv {A B} (m : M A) (k : A → M B) σ b σ' :
  bind m k σ = Done b σ' →
  ∃ a σ1, m σ = Done a σ1 ∧ k a σ1 = Done b σ'.
Proof.
  unfold bind. destruct (m σ) as [a σ1|f]; [|discriminate].
  intros E. eauto.
Qed.

Lemma getFetchedTexture_exact id ft mm boost tt σ :
  getFetchedTexture id ft mm boost tt σ
  = Done (Some id)
      (match textures σ !! id with
       | Some _ => σ
       | None =>
           set_textures (<[id := create_texture id ft mm boost tt]> (textures σ)) σ
       end).
Proof. unfold getFetchedTexture. by destruct (textures σ !! id). Qed.

Lemma setValue_uuid_comes_to id w σ :
  LLUUID_notNull id = true →
  setValue (LLSD_UUID id) w σ
  = Done (set_mTexturep (Some id)
            (set_mImageAssetID id (cleared (LLSD_UUID id) w)))
         (set_textures
            (<[id := configured (mPriority w) (listed_or_new id σ)]> (textures σ)) σ).
Proof.
  intros Hn. unfold setValue.
  cbn [coerce isString andb isUUID asUUID mImageAssetID set_mImageAssetID].
  rewrite Hn.
  erewrite bind_done by apply getFetchedTexture_exact.
  cbn [mTexturep set_mTexturep].
  change (mPriority (set_mTexturep _ _)) with (mPriority w).
  unfold listed_or_new.
  destruct (textures σ !! id) as [t0|] eqn:El; cbn [default].
  - erewrite bind_done by (by apply tex_call_listed).
    erewrite bind_done by (apply tex_call_listed; apply lookup_insert_eq).
    erewrite bind_done by (apply tex_query_listed; apply lookup_insert_eq).
    erewrite bind_done by (apply tex_query_listed; apply lookup_insert_eq).
    erewrite bind_done by (apply tex_call_listed; apply lookup_insert_eq).
    unfold ret, set_textures, cleared. cbn. f_equal. f_equal.
    by rewrite !insert_insert_eq.
  - erewrite bind_done by (apply tex_call_listed; apply lookup_insert_eq).
    erewrite bind_done by (apply tex_call_listed; apply lookup_insert_eq).
    erewrite bind_done by (apply tex_query_listed; apply lookup_insert_eq).
    erewrite bind_done by (apply tex_query_listed; apply lookup_insert_eq).
    erewrite bind_done by (apply tex_call_listed; apply lookup_insert_eq).
    unfold ret, set_textures, cleared. cbn. f_equal. f_equal.
    by rewrite !insert_insert_eq.
Qed.

(** [setValue] always returns, and returns exactly [resolved] and
    [world_after_setValue]. *)
Lemma setValue_comes_to v w σ :
  setValue v w σ = Done (resolved v w σ) (world_after_setValue v w σ).
Proof.
  rewrite setValue_coerce. unfold resolved, world_after_setValue.
  destruct (coerce v) as [| b | i | s | id | u] eqn:E; try reflexivity.
  - assert (Hv : coerce (LLSD_String s) = LLSD_String s).
    { rewrite <- E. apply coerce_idempotent. }
    unfold setValue. rewrite Hv. cbn [isUUID isString asString].
    unfold bind, getUIImage, gets. cbn [mImagep set_mImagep].
    destruct (ui_images σ !! s) as [image|]; [|reflexivity].
    by destruct (dynamic_cast_fetched (getImage image)).
  - destruct (LLUUID_notNull id) eqn:Hn.
    + by apply setValue_uuid_comes_to.
    + by apply setValue_null_uuid.
Qed.

Lemma cleared_resolved tvalue v w σ :
  cleared tvalue (resolved v w σ) = cleared tvalue w.
Proof.
  unfold resolved.
  destruct (coerce v) as [| b | i | s | id | u]; try reflexivity.
  - destruct (ui_images σ !! s) as [image|]; [|reflexivity].
    by destruct (dynamic_cast_fetched (getImage image)).
  - by destruct (LLUUID_notNull id).
Qed.

Lemma resolved_last_wins v1 v2 w σ σ1 :
  ui_images σ1 = ui_images σ →
  resolved v2 (resolved v1 w σ) σ1 = resolved v2 w σ.
Proof.
  intros Hui. unfold resolved at 1. rewrite cleared_resolved, Hui. reflexivity.
Qed.

Lemma mPriority_resolved v w σ : mPriority (resolved v w σ) = mPriority w.
Proof.
  unfold resolved.
  destruct (coerce v) as [| b | i | s | id | u]; try reflexivity.
  - destruct (ui_images σ !! s) as [image|]; [|reflexivity].
    by destruct (dynamic_cast_fetched (getImage image)).
  - by destruct (LLUUID_notNull id).
Qed.

Lemma ui_images_after_setValue v w σ :
  ui_images (world_after_setValue v w σ) = ui_images σ.
Proof.
  unfold world_after_setValue.
  destruct (coerce v) as [| b | i | s | id | u]; try reflexivity.
  by destruct (LLUUID_notNull id).
Qed.

(** X3. [setValue] touches nothing but the stored value, the asset
    identifier and the two handles: the configuration, the border child, the
    rectangle and the enabled flag of the widget are as before; it draws
    nothing and leaves the cursor and the UI image registry alone; and the
    only texture it can alter is the one listed under the identifier the
    value coerces to. *)
Theorem setValue_frame v w σ :
  ∃ w' σ',
    setValue v w σ = Done w' σ'
    ∧ mBorderColor w' = mBorderColor w
    ∧ mBorderVisible w' = mBorderVisible w
    ∧ mInteractable w' = mInteractable w
    ∧ mShowLoadingPlaceholder w' = mShowLoadingPlaceholder w
    ∧ mPriority w' = mPriority w
    ∧ mLoadingPlaceholderString w' = mLoadingPlaceholderString w
    ∧ mBorder w' = mBorder w
    ∧ getLocalRect w' = getLocalRect w
    ∧ getEnabled w' = getEnabled w
    ∧ calls σ' = calls σ
    ∧ window_cursor σ' = window_cursor σ
    ∧ ui_images σ' = ui_images σ
    ∧ (∀ k, coerce v ≠ LLSD_UUID k → textures σ' !! k = textures σ !! k).
Proof.
  exists (resolved v w σ), (world_after_setValue v w σ).
  split; [apply setValue_comes_to|].
  unfold resolved, world_after_setValue.
  destruct (coerce v) as [| b | i | s | id | u];
    try (by repeat split).
  - destruct (ui_images σ !! s) as [image|]; [|by repeat split].
    destruct (dynamic_cast_fetched (getImage image)); by repeat split.
  - destruct (LLUUID_notNull id); [|by repeat split].
    repeat split; try reflexivity.
    intros k Hk. cbn. apply lookup_insert_ne. congruence.
Qed.

(** X4. A string that does not validate as an identifier is looked up in
    the UI image registry: the world is untouched, the string itself is
    stored, the fetched-texture handle is null, the ui-image handle is
    whatever the registry has under that name (null if nothing), and the
    asset identifier is the underlying fetched texture's identifier when the
    image has one and null otherwise. *)
Theorem setValue_plain_string s w σ :
  LLUUID_validate s = false →
  ∃ w',
    setValue (LLSD_String s) w σ = Done w' σ
    ∧ getValue w' = LLSD_String s
    ∧ mTexturep w' = None
    ∧ mImagep w' = ui_images σ !! s
    ∧ mImageAssetID w'
      = match ui_images σ !! s with
        | Some image => default LLUUID_null (dynamic_cast_fetched (getImage image))
        | None => LLUUID_null
        end.
Proof.
  intros Hv.
  assert (Hc : coerce (LLSD_String s) = LLSD_String s).
  { unfold coerce. cbn [isString asString andb]. by rewrite Hv. }
  exists (resolved (LLSD_String s) w σ).
  rewrite setValue_comes_to. unfold resolved, world_after_setValue. rewrite Hc.
  split; [reflexivity|].
  destruct (ui_images σ !! s) as [image|]; [|by repeat split].
  destruct (dynamic_cast_fetched (getImage image)); by repeat split.
Qed.

(** X5. Whatever value is passed, what [setValue] stores at the base class
    is never a string that validates as an identifier. *)
Theorem setValue_never_stores_identifier_string v w σ :
  ∃ w' σ',
    setValue v w σ = Done w' σ'
    ∧ ∀ s, getValue w' = LLSD_String s → LLUUID_validate s = false.
Proof.
  destruct (setValue_post v w σ) as (w' & σ' & Hrun & Hval & _).
  exists w', σ'. split; [exact Hrun|].
  intros s Hs. rewrite Hval in Hs.
  destruct (LLUUID_validate s) eqn:Hv; [|reflexivity].
  pose proof (coerce_idempotent v) as Hi. rewrite Hs in Hi.
  rewrite (coerce_valid_string s Hv) in Hi. discriminate.
Qed.

(** X6. The last [setValue] wins: the widget after [setValue v1] followed
    by [setValue v2] is the widget after [setValue v2] alone. *)
Theorem setValue_last_wins v1 v2 w σ :
  ∃ w1 σ1 w2 σ2 σ2',
    setValue v1 w σ = Done w1 σ1
    ∧ setValue v2 w1 σ1 = Done w2 σ2
    ∧ setValue v2 w σ = Done w2 σ2'.
Proof.
  eexists _, _, _, _, _.
  split; [apply setValue_comes_to|].
  split; [apply setValue_comes_to|].
  rewrite setValue_comes_to. f_equal.
  symmetry. apply resolved_last_wins, ui_images_after_setValue.
Qed.

(** X7. [setValue] is idempotent: made a second time with the same value,
    the call changes neither the widget nor the world (the texture is found
    listed, and is given the configuration it already has). *)
Theorem setValue_idempotent v w σ :
  ∃ w1 σ1,
    setValue v w σ = Done w1 σ1
    ∧ setValue v w1 σ1 = Done w1 σ1.
Proof.
  exists (resolved v w σ), (world_after_setValue v w σ).
  split; [apply setValue_comes_to|].
  rewrite setValue_comes_to.
  rewrite (resolved_last_wins v v w σ _ (ui_images_after_setValue v w σ)).
  f_equal.
  unfold world_after_setValue at 1. rewrite mPriority_resolved.
  unfold world_after_setValue.
  destruct (coerce v) as [| b | i | s | id | u]; try reflexivity.
  destruct (LLUUID_notNull id); [|reflexivity].
  unfold listed_or_new at 1. cbn [textures set_textures].
  rewrite lookup_insert_eq. cbn [default].
  rewrite insert_insert_eq. reflexivity.
Qed.

End Resolving.

(** ** More about one [draw] *)

(** The widget a [draw] returns: the one it was given, with the border
    child told about the keyboard focus if the border is visible. *)
Lemma draw_returns_widget w σ w' σ' :
  draw w σ = Done w' σ' →
  w' = if mBorderVisible w
       then set_mBorder (setKeyboardFocusHighlight (keyboard_focus σ) <$> mBorder w) w
       else w.
Proof.
  unfold draw. intros E.
  apply bind_inv in E as ([w1 r] & σ1 & Hb & E). cbn [fst snd] in E.
  apply bind_inv in E as (? & σ2 & _ & E).
  apply bind_inv in E as (? & σ3 & _ & E).
  apply bind_inv in E as (? & σ4 & _ & E).
  injection E as <- _.
  unfold draw_border in Hb.
  destruct (mBorderVisible w); [|by injection Hb as <- _ _].
  apply bind_inv in Hb as (focus & σa & Hf & Hb).
  injection Hf as <- <-.
  destruct (mBorder w) as [b|]; [|discriminate].
  by injection Hb as <- _ _.
Qed.

Lemma draw_keeps_pointers_valid w σ w' σ' :
  pointers_valid w σ → draw w σ = Done w' σ' → pointers_valid w' σ'.
Proof.
  intros Hvalid Hrun.
  destruct (draw_makes w σ Hvalid) as (w1 & σ1 & Hrun1 & Hsame & _ & Htex).
  rewrite Hrun in Hrun1. injection Hrun1 as <- <-.
  destruct Hvalid as [Hborder Hlive].
  destruct Hsame as (_ & _ & _ & _ & _ & _ & _ & _ & Ht & _ & Hb).
  split; [auto|].
  intros h Hh. rewrite Ht in Hh. rewrite Htex.
  unfold textures_after_draw. rewrite Hh.
  destruct (Hlive h Hh) as [t Hl]. rewrite Hl, lookup_insert_eq. eauto.
Qed.

(** The picture does not depend on the known draw size that a draw writes. *)
Lemma picture_stable w σ σ1 :
  textures σ1 = textures_after_draw w σ →
  godlike σ1 = godlike σ →
  image_calls w σ1 = image_calls w σ
  ∧ loading_calls w σ1 = loading_calls w σ
  ∧ textures_after_draw w σ1 = textures σ1.
Proof.
  intros Htex Hgod.
  unfold image_calls, loading_calls, textures_after_draw in *.
  destruct (mTexturep w) as [h|]; [|by rewrite Htex].
  rewrite Htex, Hgod.
  destruct (textures σ !! h) as [t|] eqn:El.
  - rewrite lookup_insert_eq. cbn. by rewrite insert_insert_eq.
  - by rewrite El.
Qed.

Lemma border_stroke_same w w1 :
  same_but_border w w1 → border_stroke w1 = border_stroke w.
Proof.
  intros (Hb & Hbc & Hbv & _). unfold border_stroke, getLocalRect.
  by rewrite Hb, Hbc, Hbv.
Qed.

(** X9. For every draw with no fetched-texture handle but a ui-image
    handle: the calls made are the border stroke (when the border is
    visible), the UI image drawn into the widget's whole local rectangle,
    not the inset one, and the base-class draw; no text, and the texture
    table is untouched. *)
Theorem draw_ui_image_exactly w σ image :
  pointers_valid w σ →
  mTexturep w = None →
  mImagep w = Some image →
  ∃ w' σ' new,
    draw w σ = Done w' σ'
    ∧ calls σ' = calls σ ++ new
    ∧ new = border_stroke w
            ++ [LLUIImage_draw image (getLocalRect w)
                  (Color_mod UI_VERTEX_COLOR (draw_alpha w));
                LLUICtrl_draw]
    ∧ textures σ' = textures σ.
Proof.
  intros Hvalid Ht Hi.
  destruct (draw_makes w σ Hvalid) as (w' & σ' & Hrun & _ & Hlog & Htex).
  exists w', σ', (drawn w σ).
  split; [exact Hrun|]. split; [apply Hlog|].
  split.
  - unfold drawn, image_calls, loading_calls. by rewrite Ht, Hi.
  - rewrite Htex. unfold textures_after_draw. by rewrite Ht.
Qed.

(** X10. A draw tells the border child about the keyboard focus exactly
    when the border is visible: then the child's focus highlight is the
    current focus and the first call made is the unfilled stroke of the
    local rectangle in the border colour; with the border hidden the child
    is left as it was, stale highlight included. *)
Theorem draw_border_highlight w σ :
  pointers_valid w σ →
  ∃ w' σ' new,
    draw w σ = Done w' σ'
    ∧ calls σ' = calls σ ++ new
    ∧ (mBorderVisible w = true →
       (mKeyboardFocusHighlight <$> mBorder w') = Some (keyboard_focus σ)
       ∧ ∃ rest, new = gl_rect_2d (getLocalRect w) (mBorderColor w) false :: rest)
    ∧ (mBorderVisible w = false → w' = w).
Proof.
  intros Hvalid.
  destruct (draw_makes w σ Hvalid) as (w' & σ' & Hrun & _ & Hlog & _).
  pose proof (draw_returns_widget w σ w' σ' Hrun) as Hw.
  exists w', σ', (drawn w σ).
  split; [exact Hrun|]. split; [apply Hlog|].
  destruct Hvalid as [[b Hb] _].
  destruct (mBorderVisible w) eqn:Hv.
  - split; [|discriminate]. intros _. subst w'. rewrite Hb. cbn.
    split; [reflexivity|].
    unfold drawn, border_stroke. rewrite Hv. cbn. eauto.
  - split; [discriminate|]. by intros _.
Qed.

(** X11. Drawing is repeatable: a second draw right after the first makes
    the same calls once more and changes neither the widget nor the texture
    table. *)
Theorem draw_twice w σ :
  pointers_valid w σ →
  ∃ w1 σ1 σ2 new,
    draw w σ = Done w1 σ1
    ∧ draw w1 σ1 = Done w1 σ2
    ∧ calls σ1 = calls σ ++ new
    ∧ calls σ2 = calls σ1 ++ new
    ∧ textures σ2 = textures σ1.
Proof.
  intros Hvalid.
  destruct (draw_makes w σ Hvalid) as (w1 & σ1 & Hrun1 & Hsame & Hlog1 & Htex1).
  pose proof (draw_keeps_pointers_valid w σ w1 σ1 Hvalid Hrun1) as Hvalid1.
  destruct (draw_makes w1 σ1 Hvalid1) as (w2 & σ2 & Hrun2 & _ & Hlog2 & Htex2).
  assert (Hw2 : w2 = w1).
  { pose proof (draw_returns_widget w σ w1 σ1 Hrun1) as E1.
    pose proof (draw_returns_widget w1 σ1 w2 σ2 Hrun2) as E2.
    assert (Hf : keyboard_focus σ1 = keyboard_focus σ) by apply Hlog1.
    rewrite Hf in E2. rewrite E2.
    destruct Hvalid as [[b Hb] _].
    rewrite E1.
    destruct (mBorderVisible w) eqn:Hv; cbn; rewrite Hv; [|reflexivity].
    rewrite Hb. reflexivity. }
  subst w2.
  destruct (same_but_border_picture w w1 Hsame) as (_ & _ & Hpic).
  destruct (Hpic σ1) as (Hi & Hl & Hta).
  assert (Hg : godlike σ1 = godlike σ) by apply Hlog1.
  destruct (picture_stable w σ σ1 Htex1 Hg) as (Hi' & Hl' & Hta').
  assert (Hd : drawn w1 σ1 = drawn w σ).
  { unfold drawn. by rewrite (border_stroke_same w w1 Hsame), Hi, Hl, Hi', Hl'. }
  exists w1, σ1, σ2, (drawn w σ).
  split; [exact Hrun1|]. split; [exact Hrun2|].
  split; [apply Hlog1|].
  split; [rewrite <- Hd; apply Hlog2|].
  by rewrite Htex2, Hta, Hta'.
Qed.

Lemma no_base_draw_before_the_end w σ :
  existsb is_LLUICtrl_draw (border_stroke w ++ image_calls w σ ++ loading_calls w σ)
  = false.
Proof.
  rewrite !existsb_app.
  assert (Hb : existsb is_LLUICtrl_draw (border_stroke w) = false).
  { unfold border_stroke. by destruct (mBorderVisible w). }
  assert (Hi : existsb is_LLUICtrl_draw (image_calls w σ) = false).
  { unfold image_calls.
    destruct (mTexturep w) as [h|].
    - destruct (textures σ !! h) as [t|]; [|done].
      by destruct (getComponents t =? 4).
    - by destruct (mImagep w). }
  assert (Hl : existsb is_LLUICtrl_draw (loading_calls w σ) = false).
  { unfold loading_calls.
    destruct (mTexturep w) as [h|]; [|done].
    destruct (textures σ !! h) as [t|]; [|done].
    by destruct (_ && _ && _). }
  by rewrite Hb, Hi, Hl.
Qed.

(** X15. Whatever a draw renders, the base-class draw (which draws the
    children, the border child among them) is called exactly once and is
    the last call of the draw. *)
Theorem draw_base_class_last w σ :
  pointers_valid w σ →
  ∃ w' σ' front,
    draw w σ = Done w' σ'
    ∧ calls σ' = calls σ ++ front ++ [LLUICtrl_draw]
    ∧ existsb is_LLUICtrl_draw front = false.
Proof.
  intros Hvalid.
  destruct (draw_makes w σ Hvalid) as (w' & σ' & Hrun & _ & Hlog & _).
  exists w', σ', (border_stroke w ++ image_calls w σ ++ loading_calls w σ).
  split; [exact Hrun|].
  split; [|apply no_base_draw_before_the_end].
  destruct Hlog as [Hc _]. rewrite Hc. unfold drawn.
  by rewrite <- !app_assoc.
Qed.


(** ** Construction, and operations one after the other *)

Section Composing.
Context `{Externals}.

(** The widget before the constructor looks at [image_name]. *)
Lemma LLThumbnailCtrl_new_comes_to p uictrl σ :
  let w0 :=
    {| base := addChild "border" uictrl;
       mBorderColor := opt_value (border_color p);
       mBorderVisible := opt_value (border_visible p);
       mInteractable := opt_value (interactable p);
       mShowLoadingPlaceholder := opt_value (show_loading p);
       mPriority := BOOST_PREVIEW;
       mLoadingPlaceholderString := LLTrans_getString "texture_loading";
       mBorder := Some (mkBorder (mkBorderParams "border" (mLocalRect uictrl)) false);
       mImageAssetID := LLUUID_null;
       mTexturep := None;
       mImagep := None |} in
  LLThumbnailCtrl_new p uictrl σ
  = if isProvided (image_name p)
    then Done (resolved (opt_value (image_name p)) w0 σ)
              (world_after_setValue (opt_value (image_name p)) w0 σ)
    else Done w0 σ.
Proof.
  cbn zeta. unfold LLThumbnailCtrl_new. cbn [vb_name vb_rect].
  destruct (isProvided (image_name p)); [|reflexivity].
  apply setValue_comes_to.
Qed.

(** X2. For every parameter bundle, the constructor returns a widget whose
    configuration is the bundle's, whose priority is [BOOST_PREVIEW], whose
    loading label is the localized "texture_loading" string, and whose
    border child is named "border", has the widget's local rectangle and no
    focus highlight, whatever name and rectangle the nested border bundle
    carried; the child is added after the children the base already had.
    When [image_name] is provided the stored value is its coercion. *)
Theorem LLThumbnailCtrl_new_configuration p uictrl σ :
  ∃ w σ',
    LLThumbnailCtrl_new p uictrl σ = Done w σ'
    ∧ mBorderColor w = opt_value (border_color p)
    ∧ mBorderVisible w = opt_value (border_visible p)
    ∧ mInteractable w = opt_value (interactable p)
    ∧ mShowLoadingPlaceholder w = opt_value (show_loading p)
    ∧ mPriority w = BOOST_PREVIEW
    ∧ mLoadingPlaceholderString w = LLTrans_getString "texture_loading"
    ∧ mBorder w = Some (mkBorder (mkBorderParams "border" (mLocalRect uictrl)) false)
    ∧ getLocalRect w = mLocalRect uictrl
    ∧ getEnabled w = mEnabled uictrl
    ∧ mChildren (base w) = mChildren uictrl ++ ["border"]
    ∧ getValue w = (if isProvided (image_name p)
                    then coerce (opt_value (image_name p))
                    else mValue uictrl).
Proof.
  pose proof (LLThumbnailCtrl_new_comes_to p uictrl σ) as Hnew. cbn zeta in Hnew.
  destruct (isProvided (image_name p)).
  - eexists _, _. split; [exact Hnew|].
    unfold resolved.
    destruct (coerce (opt_value (image_name p))) as [| b | i | s | id | u];
      try (by repeat split).
    + destruct (ui_images σ !! s) as [image|]; [|by repeat split].
      destruct (dynamic_cast_fetched (getImage image)); by repeat split.
    + destruct (LLUUID_notNull id); by repeat split.
  - eexists _, _. split; [exact Hnew|]. by repeat split.
Qed.

(** X1. A widget constructed without [image_name] has both image handles
    and the asset identifier null and has not touched the world; drawn
    straight away it renders the fallback: the border stroke if the bundle
    asks for a visible border, the grey fill, the X, the base-class draw. *)
Theorem construct_without_image_draws_fallback p uictrl σ :
  isProvided (image_name p) = false →
  ∃ w w' σ',
    LLThumbnailCtrl_new p uictrl σ = Done w σ
    ∧ mTexturep w = None
    ∧ mImagep w = None
    ∧ mImageAssetID w = LLUUID_null
    ∧ draw w σ = Done w' σ'
    ∧ calls σ'
      = calls σ
        ++ (if opt_value (border_visible p)
            then [gl_rect_2d (mLocalRect uictrl) (opt_value (border_color p)) false]
            else [])
        ++ [gl_rect_2d (working_rect w) (Color_mod Color_grey (draw_alpha w)) true;
            gl_draw_x (working_rect w) Color_black;
            LLUICtrl_draw]
    ∧ working_rect w = (if opt_value (border_visible p)
                        then stretch (mLocalRect uictrl) (-1)
                        else mLocalRect uictrl)
    ∧ textures σ' = textures σ.
Proof.
  intros Hnone.
  pose proof (LLThumbnailCtrl_new_comes_to p uictrl σ) as Hnew. cbn zeta in Hnew.
  rewrite Hnone in Hnew.
  match type of Hnew with _ = Done ?w0 _ => set (w := w0) in * end.
  assert (Hvalid : pointers_valid w σ).
  { split; [cbn; eauto | intros h [=]]. }
  destruct (draw_makes w σ Hvalid) as (w' & σ' & Hrun & _ & Hlog & Htex).
  exists w, w', σ'.
  split; [exact Hnew|].
  repeat split; try reflexivity.
  - exact Hrun.
  - destruct Hlog as [Hc _]. rewrite Hc. reflexivity.
  - exact Htex.
Qed.

(** X12. [setValue] with a non-null identifier followed by a draw: both
    return; the draw blits that texture; afterwards the texture still has
    the widget's priority as boost level and is still to keep its raw image
    at discard 0, while its known draw size is now the size of the working
    rectangle. *)
Theorem setValue_uuid_then_draw id w σ :
  LLUUID_notNull id = true →
  is_Some (mBorder w) →
  ∃ w1 σ1 w2 σ2 new t,
    setValue (LLSD_UUID id) w σ = Done w1 σ1
    ∧ draw w1 σ1 = Done w2 σ2
    ∧ calls σ2 = calls σ ++ new
    ∧ texture_blit w id ∈ new
    ∧ textures σ2 !! id = Some t
    ∧ mBoostLevel t = mPriority w
    ∧ mForceToSaveRawImage t = true
    ∧ mDesiredSavedRawDiscardLevel t = 0
    ∧ mKnownDrawWidth t = getWidth (working_rect w)
    ∧ mKnownDrawHeight t = getHeight (working_rect w).
Proof.
  intros Hn Hborder.
  pose proof (setValue_uuid_comes_to id w σ Hn) as Hset.
  match type of Hset with _ = Done ?a ?b => set (w1 := a) in *; set (σ1 := b) in * end.
  assert (Hl1 : textures σ1 !! id
                = Some (configured (mPriority w) (listed_or_new id σ))).
  { apply lookup_insert_eq. }
  assert (Ht1 : mTexturep w1 = Some id) by reflexivity.
  assert (Hvalid : pointers_valid w1 σ1).
  { split; [exact Hborder|]. intros h [= <-]. rewrite Hl1. eauto. }
  destruct (draw_makes w1 σ1 Hvalid) as (w2 & σ2 & Hrun & _ & Hlog & Htex).
  eexists w1, σ1, w2, σ2, (drawn w1 σ1), _.
  split; [exact Hset|]. split; [exact Hrun|].
  split; [apply Hlog|].
  split.
  { unfold drawn, image_calls. rewrite Ht1, Hl1.
    rewrite !elem_of_app. right. left. right.
    change (texture_blit w1 id) with (texture_blit w id).
    apply list_elem_of_here. }
  split.
  { rewrite Htex. unfold textures_after_draw. rewrite Ht1, Hl1.
    apply lookup_insert_eq. }
  by repeat split.
Qed.

(** X13. A value that resolves to no image (anything that is neither a
    string nor an identifier, the null identifier, or a string that names no
    registered UI image) leaves the widget drawing the fallback: after
    [setValue] with such a value, a draw makes exactly the border stroke
    (border visible), the grey fill, the X and the base-class draw. *)
Theorem setValue_unresolved_then_draw_fallback v w σ :
  is_Some (mBorder w) →
  match coerce v with
  | LLSD_UUID id => LLUUID_notNull id = false
  | LLSD_String s => ui_images σ !! s = None
  | _ => True
  end →
  ∃ w1 w2 σ2,
    setValue v w σ = Done w1 σ
    ∧ draw w1 σ = Done w2 σ2
    ∧ calls σ2
      = calls σ ++ border_stroke w
        ++ [gl_rect_2d (working_rect w) (Color_mod Color_grey (draw_alpha w)) true;
            gl_draw_x (working_rect w) Color_black;
            LLUICtrl_draw]
    ∧ textures σ2 = textures σ.
Proof.
  intros Hborder Hun.
  pose proof (setValue_comes_to v w σ) as Hset.
  assert (Hfacts : world_after_setValue v w σ = σ
                   ∧ mTexturep (resolved v w σ) = None
                   ∧ mImagep (resolved v w σ) = None
                   ∧ mBorder (resolved v w σ) = mBorder w
                   ∧ border_stroke (resolved v w σ) = border_stroke w
                   ∧ working_rect (resolved v w σ) = working_rect w
                   ∧ draw_alpha (resolved v w σ) = draw_alpha w).
  { unfold world_after_setValue, resolved.
    destruct (coerce v) as [| b | i | s | id | u]; try (by repeat split).
    - rewrite Hun. by repeat split.
    - rewrite Hun. by repeat split. }
  destruct Hfacts as (Hσ & Ht & Hi & Hb & Hbs & Hwr & Hda).
  rewrite Hσ in Hset.
  assert (Hvalid : pointers_valid (resolved v w σ) σ).
  { split; [by rewrite Hb | intros h Hh; congruence]. }
  destruct (draw_makes _ σ Hvalid) as (w2 & σ2 & Hrun & _ & Hlog & Htex).
  exists (resolved v w σ), w2, σ2.
  split; [exact Hset|]. split; [exact Hrun|].
  split.
  - destruct Hlog as [Hc _]. rewrite Hc.
    unfold drawn, image_calls, loading_calls, fallback_calls.
    by rewrite Ht, Hi, Hbs, Hwr, Hda.
  - rewrite Htex. unfold textures_after_draw. by rewrite Ht.
Qed.

(** X16. The widget never undoes what it asked of a texture: once
    [setValue] has fetched a texture and a later [setValue] with another
    value has dropped the handle, the texture is still listed, still has
    the widget's priority as boost level and is still to keep its raw image
    at discard level 0. *)
Theorem setValue_superseded_texture_keeps_configuration a v w σ :
  LLUUID_notNull a = true →
  coerce v ≠ LLSD_UUID a →
  ∃ w1 σ1 w2 σ2 t,
    setValue (LLSD_UUID a) w σ = Done w1 σ1
    ∧ setValue v w1 σ1 = Done w2 σ2
    ∧ mTexturep w2 ≠ Some a
    ∧ textures σ2 !! a = Some t
    ∧ mBoostLevel t = mPriority w
    ∧ mForceToSaveRawImage t = true
    ∧ mDesiredSavedRawDiscardLevel t = 0.
Proof.
  intros Hn Hne.
  pose proof (setValue_uuid_comes_to a w σ Hn) as Hset.
  match type of Hset with _ = Done ?x ?y => set (w1 := x) in *; set (σ1 := y) in * end.
  assert (Hl1 : textures σ1 !! a
                = Some (configured (mPriority w) (listed_or_new a σ))).
  { apply lookup_insert_eq. }
  exists w1, σ1, (resolved v w1 σ1), (world_after_setValue v w1 σ1),
    (configured (mPriority w) (listed_or_new a σ)).
  split; [exact Hset|]. split; [apply setValue_comes_to|].
  split.
  { unfold resolved.
    destruct (coerce v) as [| b | i | s | id | u]; try discriminate.
    - destruct (ui_images σ1 !! s) as [image|]; [|discriminate].
      destruct (dynamic_cast_fetched (getImage image)); discriminate.
    - destruct (LLUUID_notNull id); [|discriminate].
      intros [= ->]. by apply Hne. }
  split; [|by repeat split].
  unfold world_after_setValue.
  destruct (coerce v) as [| b | i | s | id | u]; try exact Hl1.
  destruct (LLUUID_notNull id); [|exact Hl1].
  cbn [textures set_textures]. rewrite lookup_insert_ne; [exact Hl1|].
  intros ->. by apply Hne.
Qed.

(** ** An invariant of every constructed widget *)

Lemma resolved_handles_consistent v w σ : handles_consistent (resolved v w σ).
Proof.
  unfold handles_consistent, resolved.
  destruct (coerce v) as [| b | i | s | id | u] eqn:E.
  1-3, 6: split; [intros h Hh | intros image Hi]; discriminate.
  - destruct (ui_images σ !! s) as [image|].
    + destruct (dynamic_cast_fetched (getImage image)) as [tid|] eqn:Ed;
        (split; [intros h Hh; discriminate | intros image' Hi]);
        injection Hi as <-; rewrite Ed; by repeat split.
    + split; [intros h Hh | intros image Hi]; discriminate.
  - destruct (LLUUID_notNull id) eqn:Hn.
    + split; [|intros image Hi; discriminate].
      intros h Hh. injection Hh as <-. by repeat split.
    + split; [intros h Hh | intros image Hi]; discriminate.
Qed.

Lemma perform_consistent a w σ w' σ' :
  pointers_valid w σ →
  handles_consistent w →
  perform a w σ = Done w' σ' →
  handles_consistent w'.
Proof.
  intros Hvalid Hcons Hrun.
  destruct a as [v | | x y mask | progress god focus | rect enabled];
    cbn [perform] in Hrun.
  - rewrite setValue_comes_to in Hrun. injection Hrun as <- _.
    apply resolved_handles_consistent.
  - destruct (draw_makes w σ Hvalid) as (w1 & σ1 & Hrun1 & Hsame & _).
    rewrite Hrun in Hrun1. injection Hrun1 as <- _.
    destruct Hsame as (Hb & _ & _ & _ & _ & _ & _ & Hid & Ht & Hi & _).
    unfold handles_consistent, getValue in *. by rewrite Hb, Hid, Ht, Hi.
  - destruct (handleHover_done x y mask w σ) as (handled & σ1 & Hh & _).
    rewrite (bind_done _ _ _ _ _ Hh) in Hrun. by injection Hrun as <- _.
  - by injection Hrun as <- _.
  - by injection Hrun as <- _.
Qed.

Lemma run_consistent acts w σ :
  pointers_valid w σ →
  mPriority w = BOOST_PREVIEW →
  handles_consistent w →
  ∃ w' σ',
    run acts w σ = Done w' σ'
    ∧ pointers_valid w' σ'
    ∧ handles_consistent w'.
Proof.
  revert w σ. induction acts as [|a rest IH]; intros w σ Hvalid Hprio Hcons.
  - exists w, σ. split; [reflexivity | split; assumption].
  - destruct (perform_valid a w σ Hvalid Hprio) as (w1 & σ1 & Hrun & Hv1 & Hp1).
    pose proof (perform_consistent a w σ w1 σ1 Hvalid Hcons Hrun) as Hc1.
    cbn [run]. rewrite (bind_done _ _ _ _ _ Hrun). by apply IH.
Qed.

(** X8. At every point of a widget's life, that is after the constructor
    and any sequence of [setValue], [draw], [handleHover] and host actions:
    a non-null fetched-texture handle refers to a listed texture, it is the
    identifier stored as the value and as the asset identifier, that
    identifier is not null, and the ui-image handle is null; a non-null
    ui-image handle goes with a stored string, a null fetched-texture
    handle, and an asset identifier that is the underlying fetched
    texture's, or null when the image has none. *)
Theorem constructed_widget_consistent p uictrl acts σ :
  ∃ w σ',
    constructed_then p uictrl acts σ = Done w σ'
    ∧ (∀ h, mTexturep w = Some h →
            is_Some (textures σ' !! h)
            ∧ getValue w = LLSD_UUID h
            ∧ mImageAssetID w = h
            ∧ LLUUID_notNull h = true
            ∧ mImagep w = None)
    ∧ (∀ image, mImagep w = Some image →
            isString (getValue w) = true
            ∧ mTexturep w = None
            ∧ mImageAssetID w
              = default LLUUID_null (dynamic_cast_fetched (getImage image))).
Proof.
  destruct (LLThumbnailCtrl_new_valid p uictrl σ) as (w0 & σ0 & Hnew & Hv0 & Hp0).
  assert (Hc0 : handles_consistent w0).
  { pose proof (LLThumbnailCtrl_new_comes_to p uictrl σ) as E. cbn zeta in E.
    rewrite Hnew in E.
    destruct (isProvided (image_name p)); injection E as -> _.
    - apply resolved_handles_consistent.
    - split; [intros h [=] | intros image [=]]. }
  destruct (run_consistent acts w0 σ0 Hv0 Hp0 Hc0)
    as (w & σ' & Hrun & [_ Hlive] & [Ht Hi]).
  exists w, σ'. split.
  - unfold constructed_then. by rewrite (bind_done _ _ _ _ _ Hnew).
  - split; [|exact Hi].
    intros h Hh. split; [by apply Hlive | by apply Ht].
Qed.

End Composing.

(** ** The further properties at concrete inputs *)

Lemma setValue_plain_string_witness :
  @LLUUID_validate viewer "icon_foo" = false
  ∧ ∃ w',
      @setValue viewer (LLSD_String "icon_foo") sample_widget sample_world
      = Done w' sample_world
      ∧ getValue w' = LLSD_String "icon_foo"
      ∧ mTexturep w' = None
      ∧ mImagep w' = ui_images sample_world !! "icon_foo"
      ∧ mImageAssetID w'
        = match ui_images sample_world !! "icon_foo" with
          | Some image => default LLUUID_null (dynamic_cast_fetched (getImage image))
          | None => LLUUID_null
          end.
Proof.
  split; [reflexivity|].
  apply (@setValue_plain_string viewer "icon_foo" sample_widget sample_world).
  reflexivity.
Defined.

Lemma draw_ui_image_exactly_witness :
  pointers_valid bordered_icon_widget sample_world
  ∧ mTexturep bordered_icon_widget = None
  ∧ mImagep bordered_icon_widget
    = Some (mkUIImage "icon_foo" (Some (FetchedTexture 9)))
  ∧ ∃ w' σ' new,
      draw bordered_icon_widget sample_world = Done w' σ'
      ∧ calls σ' = calls sample_world ++ new
      ∧ new = border_stroke bordered_icon_widget
              ++ [LLUIImage_draw (mkUIImage "icon_foo" (Some (FetchedTexture 9)))
                    (getLocalRect bordered_icon_widget)
                    (Color_mod UI_VERTEX_COLOR (draw_alpha bordered_icon_widget));
                  LLUICtrl_draw]
      ∧ textures σ' = textures sample_world.
Proof.
  split; [concrete_pointers_valid|].
  split; [reflexivity|]. split; [reflexivity|].
  apply (draw_ui_image_exactly bordered_icon_widget sample_world).
  - concrete_pointers_valid.
  - reflexivity.
  - reflexivity.
Defined.

Lemma draw_border_highlight_witness :
  pointers_valid bordered_icon_widget sample_world
  ∧ ∃ w' σ' new,
      draw bordered_icon_widget sample_world = Done w' σ'
      ∧ calls σ' = calls sample_world ++ new
      ∧ (mBorderVisible bordered_icon_widget = true →
         (mKeyboardFocusHighlight <$> mBorder w')
         = Some (keyboard_focus sample_world)
         ∧ ∃ rest, new = gl_rect_2d (getLocalRect bordered_icon_widget)
                           (mBorderColor bordered_icon_widget) false :: rest)
      ∧ (mBorderVisible bordered_icon_widget = false → w' = bordered_icon_widget).
Proof.
  split; [concrete_pointers_valid|].
  apply (draw_border_highlight bordered_icon_widget sample_world).
  concrete_pointers_valid.
Defined.

Lemma draw_twice_witness :
  pointers_valid textured_widget sample_world
  ∧ ∃ w1 σ1 σ2 new,
      draw textured_widget sample_world = Done w1 σ1
      ∧ draw w1 σ1 = Done w1 σ2
      ∧ calls σ1 = calls sample_world ++ new
      ∧ calls σ2 = calls σ1 ++ new
      ∧ textures σ2 = textures σ1.
Proof.
  split; [concrete_pointers_valid|].
  apply (draw_twice textured_widget sample_world).
  concrete_pointers_valid.
Defined.

Lemma draw_base_class_last_witness :
  pointers_valid textured_widget sample_world
  ∧ ∃ w' σ' front,
      draw textured_widget sample_world = Done w' σ'
      ∧ calls σ' = calls sample_world ++ front ++ [LLUICtrl_draw]
      ∧ existsb is_LLUICtrl_draw front = false.
Proof.
  split; [concrete_pointers_valid|].
  apply (draw_base_class_last textured_widget sample_world).
  concrete_pointers_valid.
Defined.


Lemma construct_without_image_draws_fallback_witness :
  isProvided (image_name Params_Params) = false
  ∧ ∃ w w' σ',
      @LLThumbnailCtrl_new viewer Params_Params sample_uictrl sample_world
      = Done w sample_world
      ∧ mTexturep w = None
      ∧ mImagep w = None
      ∧ mImageAssetID w = LLUUID_null
      ∧ draw w sample_world = Done w' σ'
      ∧ calls σ'
        = calls sample_world
          ++ (if opt_value (border_visible Params_Params)
              then [gl_rect_2d (mLocalRect sample_uictrl)
                      (opt_value (border_color Params_Params)) false]
              else [])
          ++ [gl_rect_2d (working_rect w) (Color_mod Color_grey (draw_alpha w)) true;
              gl_draw_x (working_rect w) Color_black;
              LLUICtrl_draw]
      ∧ working_rect w = (if opt_value (border_visible Params_Params)
                          then stretch (mLocalRect sample_uictrl) (-1)
                          else mLocalRect sample_uictrl)
      ∧ textures σ' = textures sample_world.
Proof.
  split; [reflexivity|].
  apply (@construct_without_image_draws_fallback viewer Params_Params
           sample_uictrl sample_world).
  reflexivity.
Defined.

Lemma setValue_uuid_then_draw_witness :
  LLUUID_notNull 7 = true
  ∧ is_Some (mBorder sample_widget)
  ∧ ∃ w1 σ1 w2 σ2 new t,
      @setValue viewer (LLSD_UUID 7) sample_widget sample_world = Done w1 σ1
      ∧ draw w1 σ1 = Done w2 σ2
      ∧ calls σ2 = calls sample_world ++ new
      ∧ texture_blit sample_widget 7 ∈ new
      ∧ textures σ2 !! 7 = Some t
      ∧ mBoostLevel t = mPriority sample_widget
      ∧ mForceToSaveRawImage t = true
      ∧ mDesiredSavedRawDiscardLevel t = 0
      ∧ mKnownDrawWidth t = getWidth (working_rect sample_widget)
      ∧ mKnownDrawHeight t = getHeight (working_rect sample_widget).
Proof.
  split; [reflexivity|]. split; [eexists; reflexivity|].
  apply (@setValue_uuid_then_draw viewer 7 sample_widget sample_world).
  - reflexivity.
  - eexists; reflexivity.
Defined.

Lemma setValue_unresolved_then_draw_fallback_witness :
  is_Some (mBorder sample_widget)
  ∧ match @coerce viewer (LLSD_String "no_such_image") with
    | LLSD_UUID id => LLUUID_notNull id = false
    | LLSD_String s => ui_images sample_world !! s = None
    | _ => True
    end
  ∧ ∃ w1 w2 σ2,
      @setValue viewer (LLSD_String "no_such_image") sample_widget sample_world
      = Done w1 sample_world
      ∧ draw w1 sample_world = Done w2 σ2
      ∧ calls σ2
        = calls sample_world ++ border_stroke sample_widget
          ++ [gl_rect_2d (working_rect sample_widget)
                (Color_mod Color_grey (draw_alpha sample_widget)) true;
              gl_draw_x (working_rect sample_widget) Color_black;
              LLUICtrl_draw]
      ∧ textures σ2 = textures sample_world.
Proof.
  split; [eexists; reflexivity|]. split; [vm_compute; reflexivity|].
  apply (@setValue_unresolved_then_draw_fallback viewer
           (LLSD_String "no_such_image") sample_widget sample_world).
  - eexists; reflexivity.
  - vm_compute; reflexivity.
Defined.

Lemma setValue_superseded_texture_keeps_configuration_witness :
  LLUUID_notNull 7 = true
  ∧ @coerce viewer LLSD_Undefined ≠ LLSD_UUID 7
  ∧ ∃ w1 σ1 w2 σ2 t,
      @setValue viewer (LLSD_UUID 7) sample_widget sample_world = Done w1 σ1
      ∧ @setValue viewer LLSD_Undefined w1 σ1 = Done w2 σ2
      ∧ mTexturep w2 ≠ Some 7
      ∧ textures σ2 !! 7 = Some t
      ∧ mBoostLevel t = mPriority sample_widget
      ∧ mForceToSaveRawImage t = true
      ∧ mDesiredSavedRawDiscardLevel t = 0.
Proof.
  split; [reflexivity|]. split; [discriminate|].
  apply (@setValue_superseded_texture_keeps_configuration viewer 7
           LLSD_Undefined sample_widget sample_world).
  - reflexivity.
  - discriminate.
Defined.
